(** * Ticket processing worker: store protocol, queue loop and classifiers

    A shallow embedding of [src/processor/worker.py] (the worker loop
    [TicketProcessor]), of the pydantic schemas of [src/common/schemas.py]
    and of the parts of [src/processor/embeddings.py] and
    [src/processor/classifier.py] that produce the enrichment fields.

    External services (S3, DynamoDB, SQS, the HuggingFace models, the
    [re] module) enter through the record [env] of their observable
    behaviour; the two stores and the worker statistics are the state of a
    small state-and-error monad. *)

From Stdlib Require Import String Ascii ZArith QArith Bool List.
From stdpp Require Import base gmap strings list.

Open Scope string_scope.

(* ------------------------------------------------------------------ *)
(** ** JSON values as [json.loads] returns them *)

Module Py.

(** [JFloat] is a Python float (a JSON number written with a fraction or
    an exponent); [JInt] a Python int. Objects keep their members in text
    order; lookups follow [dict] (the last duplicate wins). *)
#[warnings="-register-all"]
Inductive json :=
| JNull
| JBool (b : bool)
| JInt (z : Z)
| JFloat (q : Q)
| JStr (s : string)
| JArr (l : list json)
| JObj (kvs : list (string * json)).

(** [d.get(k)] / [d[k]] on a dict built by [json.loads]. *)
Definition dict_get (kvs : list (string * json)) (k : string) : option json :=
  fold_left (fun acc kv => if String.eqb k (fst kv) then Some (snd kv) else acc)
            kvs None.

Definition dict_has (kvs : list (string * json)) (k : string) : bool :=
  match dict_get kvs k with Some _ => true | None => false end.

(** Iteration order of a dict: each key once, at its first position. *)
Fixpoint dict_keys_aux (seen : list string) (kvs : list (string * json)) : list string :=
  match kvs with
  | [] => []
  | (k, _) :: kvs' =>
      if existsb (String.eqb k) seen then dict_keys_aux seen kvs'
      else k :: dict_keys_aux (k :: seen) kvs'
  end.

Definition dict_keys (kvs : list (string * json)) : list string := dict_keys_aux [] kvs.

(** [needle in s] for Python strings: substring test. *)
Fixpoint is_prefix (p s : string) : bool :=
  match p, s with
  | EmptyString, _ => true
  | String a p', String b s' => Ascii.eqb a b && is_prefix p' s'
  | String _ _, EmptyString => false
  end.

Fixpoint is_substring (p s : string) : bool :=
  is_prefix p s ||
  match s with
  | EmptyString => false
  | String _ s' => is_substring p s'
  end.

(** [needle in v] for a string [needle]: key test on a dict, element test
    on a list, substring test on a str; [None] is the [TypeError] raised for
    int, float, bool and None. *)
Definition py_in (needle : string) (v : json) : option bool :=
  match v with
  | JObj kvs => Some (dict_has kvs needle)
  | JArr l => Some (existsb (fun x => match x with JStr s => String.eqb s needle | _ => false end) l)
  | JStr s => Some (is_substring needle s)
  | _ => None
  end.

(** [v[k]] with a string [k]: only a dict holding [k] succeeds; a list, str
    or scalar raises [TypeError], a dict without [k] raises [KeyError]. *)
Definition getitem (v : json) (k : string) : option json :=
  match v with
  | JObj kvs => dict_get kvs k
  | _ => None
  end.

(** [for x in v]: a list yields its elements, a dict its keys, a str its
    characters; anything else raises [TypeError]. *)
Definition py_iter (v : json) : option (list json) :=
  match v with
  | JArr l => Some l
  | JObj kvs => Some (map JStr (dict_keys kvs))
  | JStr s => Some (map (fun c => JStr (String c EmptyString)) (list_ascii_of_string s))
  | _ => None
  end.

(** Whitespace as [str.strip] / [str.split] see it (ASCII part). *)
Definition is_space (c : ascii) : bool :=
  let n := nat_of_ascii c in
  (((9 <=? n) && (n <=? 13)) || ((28 <=? n) && (n <=? 32)))%nat.

(** [not s.strip()]. *)
Definition blank (s : string) : bool := forallb is_space (list_ascii_of_string s).

Definition lower_char (c : ascii) : ascii :=
  let n := nat_of_ascii c in
  if ((65 <=? n) && (n <=? 90))%nat then ascii_of_nat (n + 32)%nat else c.

Definition upper_char (c : ascii) : ascii :=
  let n := nat_of_ascii c in
  if ((97 <=? n) && (n <=? 122))%nat then ascii_of_nat (n - 32)%nat else c.

Definition lower (s : string) : string :=
  string_of_list_ascii (map lower_char (list_ascii_of_string s)).

Definition upper (s : string) : string :=
  string_of_list_ascii (map upper_char (list_ascii_of_string s)).

(** [s.split()]: maximal runs of non-whitespace. *)
Fixpoint split_words_aux (cur : list ascii) (cs : list ascii) : list string :=
  match cs with
  | [] => match cur with [] => [] | _ => [string_of_list_ascii (rev cur)] end
  | c :: cs' =>
      if is_space c then
        match cur with
        | [] => split_words_aux [] cs'
        | _ => string_of_list_ascii (rev cur) :: split_words_aux [] cs'
        end
      else split_words_aux (c :: cur) cs'
  end.

Definition split_words (s : string) : list string := split_words_aux [] (list_ascii_of_string s).

(** [" ".join(ws)]. *)
Fixpoint join_space (ws : list string) : string :=
  match ws with
  | [] => ""
  | [w] => w
  | w :: ws' => w ++ " " ++ join_space ws'
  end.

Definition truthy_str (s : string) : bool :=
  match s with EmptyString => false | _ => true end.

End Py.

Import Py.

Example py_in_records : py_in "Records" (JObj [("Records", JArr [])]) = Some true.
Proof. reflexivity. Qed.

Example split_words_ex : split_words "  a bc  d " = ["a"; "bc"; "d"].
Proof. reflexivity. Qed.

(* ------------------------------------------------------------------ *)
(** ** Schemas ([src/common/schemas.py]) and their pydantic validation *)

Module TicketMetadata.
Record t := { source : string; language : string; tags : list string }.
End TicketMetadata.

(** [RawTicket]; [created_at] is the validated [int]. *)
Module RawTicket.
Record t := {
  ticket_id : string;
  subject : string;
  body : string;
  priority : option string;
  created_at : Z;
  customer_id : string;
  metadata : TicketMetadata.t }.
End RawTicket.

Module EnrichmentData.
Record t := {
  embedding : list Q;
  intent : string;
  intent_confidence : Q;
  urgency : string;
  urgency_confidence : Q;
  sentiment : string;
  sentiment_confidence : Q;
  summary : string;
  processed_at : string;
  model_version : string }.
End EnrichmentData.

Module EnrichedTicket.
Record t := {
  ticket_id : string;
  subject : string;
  body : string;
  priority : option string;
  created_at : Z;
  customer_id : string;
  metadata : TicketMetadata.t;
  enrichment : EnrichmentData.t }.
End EnrichedTicket.

Module DynamoDBTicket.
Record t := {
  ticket_id : string;
  created_at : Z;
  subject : string;
  customer_id : string;
  intent : string;
  urgency : string;
  sentiment : string;
  summary : string;
  processed_at : string;
  s3_key : string }.
End DynamoDBTicket.

(** Pydantic v2 (lax mode, the default) field validators as they apply to
    values produced by [json.loads]. A [str] field accepts only a str. *)
Definition pyd_str (v : json) : option string :=
  match v with JStr s => Some s | _ => None end.

Definition digit_val (c : ascii) : option Z :=
  let n := nat_of_ascii c in
  if ((48 <=? n) && (n <=? 57))%nat then Some (Z.of_nat (n - 48)) else None.

Fixpoint digits_val (acc : Z) (cs : list ascii) : option Z :=
  match cs with
  | [] => Some acc
  | c :: cs' => d ← digit_val c; digits_val (10 * acc + d)%Z cs'
  end.

Fixpoint drop_spaces (cs : list ascii) : list ascii :=
  match cs with
  | c :: cs' => if is_space c then drop_spaces cs' else cs
  | [] => []
  end.

Definition strip_chars (cs : list ascii) : list ascii :=
  rev (drop_spaces (rev (drop_spaces cs))).

(** The str-to-int conversion of pydantic-core ([str_as_int]). A
    character [c] of a [string] stands for the code point [nat_of_ascii c].
    [str::trim] removes Unicode [White_Space], which below 256 is 9-13,
    32, 0x85 and 0xA0. *)
Definition is_trim_space (c : ascii) : bool :=
  let n := nat_of_ascii c in
  (((9 <=? n) && (n <=? 13)) || (n =? 32) || (n =? 133) || (n =? 160))%nat.

Fixpoint drop_trim (cs : list ascii) : list ascii :=
  match cs with
  | c :: cs' => if is_trim_space c then drop_trim cs' else cs
  | [] => []
  end.

Definition trim_chars (cs : list ascii) : list ascii :=
  rev (drop_trim (rev (drop_trim cs))).

(** [str.len()]: the UTF-8 length in bytes. *)
Definition utf8_len (cs : list ascii) : nat :=
  fold_right (fun c n => ((if nat_of_ascii c <? 128 then 1 else 2) + n)%nat) 0%nat cs.

(** Rust's [str::parse::<i64>()]: one optional sign, then at least one
    ASCII digit (the inputs it is given, under 19 bytes, never overflow). *)
Definition parse_i64 (cs : list ascii) : option Z :=
  match cs with
  | [] => None
  | c :: ds =>
      if Ascii.eqb c "-"%char then
        match ds with [] => None | _ => z ← digits_val 0 ds; Some (- z)%Z end
      else if Ascii.eqb c "+"%char then
        match ds with [] => None | _ => digits_val 0 ds end
      else digits_val 0 cs
  end.

(** num-bigint's digit loop: ['_'] is skipped, any other non-digit fails. *)
Fixpoint digits_us (acc : Z) (cs : list ascii) : option Z :=
  match cs with
  | [] => Some acc
  | c :: cs' =>
      if Ascii.eqb c "_"%char then digits_us acc cs'
      else d ← digit_val c; digits_us (10 * acc + d)%Z cs'
  end.

Definition starts_with (c : ascii) (cs : list ascii) : bool :=
  match cs with d :: _ => Ascii.eqb d c | [] => false end.

(** [BigUint::from_str_radix(s, 10)]: one ['+'] is dropped unless a second
    follows; the rest must be non-empty and must not start with ['_']. *)
Definition biguint_of (cs : list ascii) : option Z :=
  let cs := match cs with
            | c :: tl => if Ascii.eqb c "+"%char && negb (starts_with "+"%char tl) then tl else cs
            | [] => cs
            end in
  match cs with
  | [] => None
  | c :: _ => if Ascii.eqb c "_"%char then None else digits_us 0 cs
  end.

(** [BigInt::from_str_radix(s, 10)]: a leading ['-'] is the sign (and is
    kept, so that parsing fails, when a ['+'] follows it). *)
Definition bigint_of (cs : list ascii) : option Z :=
  match cs with
  | c :: tl =>
      if Ascii.eqb c "-"%char then
        v ← biguint_of (if starts_with "+"%char tl then cs else tl); Some (- v)%Z
      else biguint_of cs
  | [] => biguint_of cs
  end.

(** [_parse_str]: [i64] below 19 bytes, [BigInt] from 19 bytes on, where
    [len] is the length of the trimmed input. *)
Definition parse_str (cs : list ascii) (len : nat) : option Z :=
  if (len <? 19)%nat then parse_i64 cs else bigint_of cs.

(** [strip_decimal_zeros]: the part before the first ['.'] when only
    ['0']s follow it. *)
Fixpoint strip_decimal_zeros (cs : list ascii) : option (list ascii) :=
  match cs with
  | [] => None
  | c :: cs' =>
      if Ascii.eqb c "."%char then
        if forallb (Ascii.eqb "0"%char) cs' then Some [] else None
      else p ← strip_decimal_zeros cs'; Some (c :: p)
  end.

Fixpoint has_double_underscore (cs : list ascii) : bool :=
  match cs with
  | c :: ((d :: _) as cs') => (Ascii.eqb c "_"%char && Ascii.eqb d "_"%char) || has_double_underscore cs'
  | _ => false
  end.

(** [strip_underscores]: [None] when the string starts or ends with
    ['_'], has no ['_'] or has ["__"]; otherwise it without its ['_']s. *)
Definition strip_underscores (cs : list ascii) : option (list ascii) :=
  if starts_with "_"%char cs || starts_with "_"%char (rev cs) ||
     negb (existsb (Ascii.eqb "_"%char) cs) || has_double_underscore cs then None
  else Some (filter (fun c => negb (Ascii.eqb c "_"%char)) cs).

(** [str_as_int]: trim; more than 4300 bytes is an error; parse; failing
    that, parse without the decimal zeros if it has some, else without
    the underscores if they can be stripped. *)
Definition int_of_str (s : string) : option Z :=
  let t := trim_chars (list_ascii_of_string s) in
  let len := utf8_len t in
  if (4300 <? len)%nat then None
  else
    match parse_str t len with
    | Some z => Some z
    | None =>
        match strip_decimal_zeros t with
        | Some u => parse_str u len
        | None =>
            match strip_underscores t with
            | Some u => parse_str u len
            | None => None
            end
        end
    end.

(** An [int] field accepts an int, a bool, a float without fractional
    part and a str that [int_of_str] converts. *)
Definition pyd_int (v : json) : option Z :=
  match v with
  | JInt z => Some z
  | JBool b => Some (Z.b2z b)
  | JFloat q =>
      if Z.eqb (Z.rem (Qnum q) (Zpos (Qden q))) 0 then Some (Z.quot (Qnum q) (Zpos (Qden q)))
      else None
  | JStr s => int_of_str s
  | _ => None
  end.

Example int_of_str_ex :
  int_of_str " 1700000000 " = Some 1700000000%Z /\ int_of_str "1_000" = Some 1000%Z /\
  int_of_str "+1_0" = Some 10%Z /\ int_of_str "1.0" = Some 1%Z /\ int_of_str "-1.00" = Some (-1)%Z /\
  int_of_str "1." = Some 1%Z /\ int_of_str "1.5" = None /\ int_of_str "_1" = None /\
  int_of_str "1__0" = None /\ int_of_str "1_" = None /\ int_of_str "" = None /\ int_of_str "-" = None /\
  int_of_str (String (ascii_of_nat 28) "5") = None /\ int_of_str (String (ascii_of_nat 160) "5") = Some 5%Z /\
  int_of_str "1234567890123456789_0" = Some 12345678901234567890%Z /\
  int_of_str (string_of_list_ascii (repeat "1"%char 4301)) = None.
Proof. vm_compute. repeat split. Qed.

(** A required field: absent is a validation error. *)
Definition required {A} (kvs : list (string * json)) (k : string)
    (f : json -> option A) : option A :=
  v ← dict_get kvs k; f v.

(** [Field(default=d)]. *)
Definition with_default {A} (kvs : list (string * json)) (k : string) (d : A)
    (f : json -> option A) : option A :=
  match dict_get kvs k with None => Some d | Some v => f v end.

Definition validate_metadata (v : json) : option TicketMetadata.t :=
  match v with
  | JObj m =>
      src ← required m "source" pyd_str;
      lang ← with_default m "language" "en" pyd_str;
      tgs ← with_default m "tags" []
              (fun v => match v with JArr l => mapM pyd_str l | _ => None end);
      Some {| TicketMetadata.source := src; TicketMetadata.language := lang;
              TicketMetadata.tags := tgs |}
  | _ => None
  end.

Definition default_metadata : TicketMetadata.t :=
  {| TicketMetadata.source := "unknown"; TicketMetadata.language := "en";
     TicketMetadata.tags := [] |}.

(** [RawTicket] applied to the raw dict as keyword arguments; [None] is the raised [ValidationError].
    Unknown members are ignored, as pydantic does by default. *)
Definition validate_raw_ticket (kvs : list (string * json)) : option RawTicket.t :=
  tid ← required kvs "ticket_id" pyd_str;
  subj ← required kvs "subject" pyd_str;
  bdy ← required kvs "body" pyd_str;
  prio ← with_default kvs "priority" None
           (fun v => match v with JNull => Some None | JStr s => Some (Some s) | _ => None end);
  cat ← required kvs "created_at" pyd_int;
  cid ← required kvs "customer_id" pyd_str;
  md ← with_default kvs "metadata" default_metadata validate_metadata;
  Some {| RawTicket.ticket_id := tid; RawTicket.subject := subj; RawTicket.body := bdy;
          RawTicket.priority := prio; RawTicket.created_at := cat;
          RawTicket.customer_id := cid; RawTicket.metadata := md |}.

Definition conf_ok (c : Q) : bool := Qle_bool 0 c && Qle_bool c 1.

(** [EnrichmentData(...)]: the [ge=0.0, le=1.0] constraints of the three
    confidence fields; [None] is the raised [ValidationError]. *)
Definition mk_enrichment_data (emb : list Q) (intent : string) (ic : Q)
    (urgency : string) (uc : Q) (sentiment : string) (sc : Q)
    (summary processed_at model_version : string) : option EnrichmentData.t :=
  if conf_ok ic && conf_ok uc && conf_ok sc then
    Some {| EnrichmentData.embedding := emb; EnrichmentData.intent := intent;
            EnrichmentData.intent_confidence := ic; EnrichmentData.urgency := urgency;
            EnrichmentData.urgency_confidence := uc; EnrichmentData.sentiment := sentiment;
            EnrichmentData.sentiment_confidence := sc; EnrichmentData.summary := summary;
            EnrichmentData.processed_at := processed_at;
            EnrichmentData.model_version := model_version |}
  else None.

Definition from_raw (raw : RawTicket.t) (e : EnrichmentData.t) : EnrichedTicket.t :=
  {| EnrichedTicket.ticket_id := RawTicket.ticket_id raw;
     EnrichedTicket.subject := RawTicket.subject raw;
     EnrichedTicket.body := RawTicket.body raw;
     EnrichedTicket.priority := RawTicket.priority raw;
     EnrichedTicket.created_at := RawTicket.created_at raw;
     EnrichedTicket.customer_id := RawTicket.customer_id raw;
     EnrichedTicket.metadata := RawTicket.metadata raw;
     EnrichedTicket.enrichment := e |}.

Definition from_enriched (e : EnrichedTicket.t) : DynamoDBTicket.t :=
  let en := EnrichedTicket.enrichment e in
  {| DynamoDBTicket.ticket_id := EnrichedTicket.ticket_id e;
     DynamoDBTicket.created_at := EnrichedTicket.created_at e;
     DynamoDBTicket.subject := EnrichedTicket.subject e;
     DynamoDBTicket.customer_id := EnrichedTicket.customer_id e;
     DynamoDBTicket.intent := EnrichmentData.intent en;
     DynamoDBTicket.urgency := EnrichmentData.urgency en;
     DynamoDBTicket.sentiment := EnrichmentData.sentiment en;
     DynamoDBTicket.summary := EnrichmentData.summary en;
     DynamoDBTicket.processed_at := EnrichmentData.processed_at en;
     DynamoDBTicket.s3_key := EnrichedTicket.ticket_id e ++ ".json" |}.

(** [enriched_ticket.model_dump_json()], read back as JSON. *)
Definition metadata_json (m : TicketMetadata.t) : json :=
  JObj [("source", JStr (TicketMetadata.source m));
        ("language", JStr (TicketMetadata.language m));
        ("tags", JArr (map JStr (TicketMetadata.tags m)))].

Definition enrichment_json (en : EnrichmentData.t) : json :=
  JObj [("embedding", JArr (map JFloat (EnrichmentData.embedding en)));
        ("intent", JStr (EnrichmentData.intent en));
        ("intent_confidence", JFloat (EnrichmentData.intent_confidence en));
        ("urgency", JStr (EnrichmentData.urgency en));
        ("urgency_confidence", JFloat (EnrichmentData.urgency_confidence en));
        ("sentiment", JStr (EnrichmentData.sentiment en));
        ("sentiment_confidence", JFloat (EnrichmentData.sentiment_confidence en));
        ("summary", JStr (EnrichmentData.summary en));
        ("processed_at", JStr (EnrichmentData.processed_at en));
        ("model_version", JStr (EnrichmentData.model_version en))].

Definition enriched_json (e : EnrichedTicket.t) : json :=
  JObj [("ticket_id", JStr (EnrichedTicket.ticket_id e));
        ("subject", JStr (EnrichedTicket.subject e));
        ("body", JStr (EnrichedTicket.body e));
        ("priority", match EnrichedTicket.priority e with Some p => JStr p | None => JNull end);
        ("created_at", JInt (EnrichedTicket.created_at e));
        ("customer_id", JStr (EnrichedTicket.customer_id e));
        ("metadata", metadata_json (EnrichedTicket.metadata e));
        ("enrichment", enrichment_json (EnrichedTicket.enrichment e))].

(* ------------------------------------------------------------------ *)
(** ** External services *)

(** What the worker observes of S3, DynamoDB, SQS, the models and [re]:
    - [put_item_fails] / [put_object_fails] / [delete_message_fails]: the
      boto3 call raises for these arguments;
    - [embedding_model_loads], [classifier_loads]: [load_embedding_model()]
      and [load_classifier_pipeline()] return (rather than raise);
    - [encode text]: [model.encode(text).tolist()], [None] if it raises;
    - [sentiment_pipeline text]: label and score of [classifier(text)[0]],
      [None] if the call raises (caught in [classify_sentiment]);
    - [generate_summary subject body]: [src/processor/summarizer.py], an
      external collaborator, [None] if it raises;
    - [keyword_matches kw text]:
      [len(re.findall(r'\b' + re.escape(kw) + r'\b', text))], so that
      [re.search] of the same pattern succeeds iff it is positive;
    - [utcnow_iso]: [datetime.utcnow().isoformat()]. *)
Record env := {
  put_item_fails : DynamoDBTicket.t -> bool;
  put_object_fails : string -> string -> bool;
  delete_message_fails : string -> bool;
  embedding_model_loads : bool;
  encode : string -> option (list Q);
  classifier_loads : bool;
  sentiment_pipeline : string -> option (string * Q);
  generate_summary : string -> string -> option string;
  keyword_matches : string -> string -> nat;
  utcnow_iso : string }.

(** The part of [ProcessorConfig] the worker loop reads. *)
Record config := { raw_bucket : string; enriched_bucket : string }.

(* ------------------------------------------------------------------ *)
(** ** [src/processor/embeddings.py] *)

(** [f"{subject}. {body}" if subject and body else subject or body]. *)
Definition combined_text (subject body : string) : string :=
  if truthy_str subject && truthy_str body then subject ++ ". " ++ body
  else if truthy_str subject then subject else body.

(** [generate_ticket_embedding]: the texts passed to [model.encode] and the
    result ([None] when the function raises). The ticket reaches it after
    [RawTicket] validation, so [subject] and [body] are strings. *)
Definition generate_ticket_embedding (E : env) (subject body : string)
    : list string * option (list Q) :=
  if negb (embedding_model_loads E) then ([], None)
  else
    let text := combined_text subject body in
    if blank text then ([], Some (repeat 0%Q 384))
    else ([text], encode E text).

(* ------------------------------------------------------------------ *)
(** ** [src/processor/classifier.py] *)

Definition INTENT_KEYWORDS : list (string * list string) := [
  ("login_issue", ["login"; "log in"; "sign in"; "signin"; "password"; "credentials";
     "authentication"; "auth"; "access denied"; "locked out"; "2fa"; "mfa"]);
  ("payment_issue", ["payment"; "charge"; "charged"; "refund"; "billing"; "invoice";
     "transaction"; "credit card"; "debit"; "declined"; "failed payment"]);
  ("bug_report", ["bug"; "error"; "crash"; "broken"; "not working"; "doesn't work";
     "issue"; "problem"; "glitch"; "freeze"; "hang"; "exception"]);
  ("feature_request", ["feature"; "request"; "enhancement"; "add"; "support for"; "would love";
     "suggestion"; "improve"; "could you add"; "wish"]);
  ("account_management", ["account"; "profile"; "settings"; "update"; "change"; "delete";
     "deactivate"; "email address"; "phone number"; "password reset"]);
  ("performance_issue", ["slow"; "performance"; "loading"; "timeout"; "lag"; "delay";
     "hanging"; "speed"; "takes too long"]);
  ("security_concern", ["security"; "hack"; "hacked"; "unauthorized"; "breach"; "suspicious";
     "fraud"; "scam"; "phishing"; "malware"; "virus"]);
  ("data_request", ["data"; "export"; "download"; "gdpr"; "privacy"; "information";
     "personal data"; "data protection"]);
  ("integration_help", ["integration"; "api"; "webhook"; "oauth"; "sdk"; "plugin";
     "third party"; "connect"; "sync"])].

Definition URGENCY_KEYWORDS : list (string * list string) := [
  ("critical", ["urgent"; "critical"; "emergency"; "asap"; "immediately"; "right now";
     "down"; "outage"; "broken"; "can't access"; "unable to"; "blocked";
     "losing money"; "production"; "hacked"; "security breach"]);
  ("high", ["important"; "need help"; "problem"; "issue"; "can't"; "cannot";
     "doesn't work"; "not working"; "error"; "failing"; "soon"; "business impact"]);
  ("medium", ["question"; "how to"; "how do i"; "help"; "assistance";
     "wondering"; "clarify"; "explain"]);
  ("low", ["suggestion"; "feature"; "enhancement"; "when possible";
     "sometime"; "eventually"; "minor"; "nice to have"])].

Definition keyword_score (matches : string -> string -> nat) (text : string)
    (kws : list string) : nat :=
  fold_left (fun acc kw => (acc + matches kw text)%nat) kws 0%nat.

(** [intent_scores]: the intents with a positive score, in dict order. *)
Definition intent_scores (matches : string -> string -> nat) (text : string)
    : list (string * nat) :=
  filter (fun p => (0 <? snd p)%nat)
    (map (fun ik => (fst ik, keyword_score matches text (snd ik))) INTENT_KEYWORDS).

(** [max(intent_scores, key=intent_scores.get)]: the first maximal entry. *)
Fixpoint first_max (best : string * nat) (l : list (string * nat)) : string * nat :=
  match l with
  | [] => best
  | p :: l' => if (snd best <? snd p)%nat then first_max p l' else first_max best l'
  end.

(** [min(a, b)]: [a] unless [b < a]. *)
Definition py_min (a b : Q) : Q := if negb (Qle_bool a b) then b else a.

Definition classify_intent (matches : string -> string -> nat) (subject body : string)
    : string * Q :=
  let text := lower (subject ++ " " ++ body) in
  if blank text then ("general_inquiry", 0%Q)
  else
    match intent_scores matches text with
    | [] => ("general_inquiry", (1 # 2)%Q)
    | p :: l =>
        let best := first_max p l in
        (fst best, py_min (inject_Z (Z.of_nat (snd best)) / 3)%Q 1%Q)
    end.

Definition urgency_confidence (level : string) : Q :=
  if String.eqb level "critical" then (9 # 10)%Q
  else if String.eqb level "high" then (8 # 10)%Q
  else (7 # 10)%Q.

(** The [for urgency_level ...: for keyword ...: if re.search(...)] scan. *)
Fixpoint urgency_scan (matches : string -> string -> nat) (text : string)
    (levels : list (string * list string)) : option string :=
  match levels with
  | [] => None
  | (lvl, kws) :: levels' =>
      if existsb (fun kw => (0 <? matches kw text)%nat) kws then Some lvl
      else urgency_scan matches text levels'
  end.

(** [classify_urgency]; [prio] is [ticket.get("priority")] on the raw dict,
    and [None] the [AttributeError] of [.lower()] on a non-str priority. *)
Definition classify_urgency (matches : string -> string -> nat) (prio : option json)
    (subject body : string) : option (string * Q) :=
  explicit ← match prio with
             | None => Some ""
             | Some (JStr p) => Some (lower p)
             | Some _ => None
             end;
  if existsb (String.eqb explicit) ["critical"; "high"; "medium"; "low"] then
    Some (explicit, 1%Q)
  else
    let text := lower (subject ++ " " ++ body) in
    if blank text then Some ("medium", (6 # 10)%Q)
    else
      match urgency_scan matches text URGENCY_KEYWORDS with
      | Some lvl => Some (lvl, urgency_confidence lvl)
      | None => Some ("medium", (6 # 10)%Q)
      end.

(** [classify_sentiment]; [None] when [load_classifier_pipeline()] raises
    (that call is outside the [try]). *)
Definition classify_sentiment (E : env) (subject body : string) : option (string * Q) :=
  if negb (classifier_loads E) then None
  else
    let text := combined_text subject body in
    if blank text then Some ("NEUTRAL", (1 # 2)%Q)
    else
      let words := split_words text in
      let text := if (400 <? length words)%nat then join_space (firstn 400 words) else text in
      match sentiment_pipeline E text with
      | None => Some ("NEUTRAL", (1 # 2)%Q)
      | Some (label, score) =>
          if Qle_bool (45 # 100) score && Qle_bool score (55 # 100) then
            Some ("NEUTRAL", (1 # 2)%Q)
          else Some (upper label, score)
      end.

(* ------------------------------------------------------------------ *)
(** ** [TicketProcessor.process_ticket] *)

(** The error kinds; each is a Python exception raised at that stage. *)
Inductive err :=
| ParseError        (* malformed notification body or record *)
| FetchError        (* get_object raised, or the object is not a JSON dict *)
| ValidationError   (* pydantic rejected RawTicket or EnrichmentData *)
| EnrichmentError   (* a model call raised *)
| StorageError      (* put_item or put_object raised *)
| DeleteError.      (* delete_message raised *)

(** [get_classification_summary]: intent, urgency, sentiment in this order. *)
Definition get_classification_summary (E : env) (prio : option json) (subject body : string)
    : option ((string * Q) * (string * Q) * (string * Q)) :=
  let ic := classify_intent (keyword_matches E) subject body in
  uc ← classify_urgency (keyword_matches E) prio subject body;
  sc ← classify_sentiment E subject body;
  Some (ic, uc, sc).

Definition process_ticket (E : env) (raw_ticket : list (string * json))
    : err + EnrichedTicket.t :=
  match validate_raw_ticket raw_ticket with
  | None => inl ValidationError
  | Some ticket =>
      let subj := RawTicket.subject ticket in
      let bdy := RawTicket.body ticket in
      match snd (generate_ticket_embedding E subj bdy) with
      | None => inl EnrichmentError
      | Some embedding =>
          match get_classification_summary E (dict_get raw_ticket "priority") subj bdy with
          | None => inl EnrichmentError
          | Some ((intent, ic), (urgency, uc), (sentiment, sc)) =>
              match generate_summary E subj bdy with
              | None => inl EnrichmentError
              | Some summary =>
                  match mk_enrichment_data embedding intent ic urgency uc sentiment sc
                          summary (utcnow_iso E) "1.0.0" with
                  | None => inl ValidationError
                  | Some enrichment => inr (from_raw ticket enrichment)
                  end
              end
          end
      end
  end.

(* ------------------------------------------------------------------ *)
(** ** Worker state and the state-and-error monad *)

(** [s3]: objects by (bucket, key), a [None] content being bytes that do
    not decode to JSON; [table]: the DynamoDB table by its key
    (ticket_id, created_at); [delete_requests]: receipt handles passed to
    [sqs.delete_message], most recent first; the two counters of
    [self.stats]. *)
Record store := {
  s3 : gmap (string * string) (option json);
  table : gmap (string * Z) DynamoDBTicket.t;
  delete_requests : list string;
  tickets_processed : nat;
  tickets_failed : nat }.

Definition set_s3 (st : store) (m : gmap (string * string) (option json)) : store :=
  {| s3 := m; table := table st; delete_requests := delete_requests st;
     tickets_processed := tickets_processed st; tickets_failed := tickets_failed st |}.

Definition set_table (st : store) (t : gmap (string * Z) DynamoDBTicket.t) : store :=
  {| s3 := s3 st; table := t; delete_requests := delete_requests st;
     tickets_processed := tickets_processed st; tickets_failed := tickets_failed st |}.

Definition add_delete_request (st : store) (h : string) : store :=
  {| s3 := s3 st; table := table st; delete_requests := h :: delete_requests st;
     tickets_processed := tickets_processed st; tickets_failed := tickets_failed st |}.

Definition incr_processed (st : store) : store :=
  {| s3 := s3 st; table := table st; delete_requests := delete_requests st;
     tickets_processed := S (tickets_processed st); tickets_failed := tickets_failed st |}.

Definition incr_failed (st : store) : store :=
  {| s3 := s3 st; table := table st; delete_requests := delete_requests st;
     tickets_processed := tickets_processed st; tickets_failed := S (tickets_failed st) |}.

(** A computation that may raise: the state reached is kept either way. *)
Definition M (A : Type) : Type := store -> (err + A) * store.

#[global] Instance M_ret : MRet M := fun A x st => (inr x, st).
#[global] Instance M_bind : MBind M := fun A B k m st =>
  match m st with
  | (inl e, st') => (inl e, st')
  | (inr x, st') => k x st'
  end.

Definition raise {A} (e : err) : M A := fun st => (inl e, st).

Definition lift {A} (e : err) (o : option A) : M A :=
  match o with Some x => mret x | None => raise e end.

Definition lift_sum {A} (r : err + A) : M A :=
  match r with inr x => mret x | inl e => raise e end.

Definition modify (f : store -> store) : M unit := fun st => (inr tt, f st).

(* ------------------------------------------------------------------ *)
(** ** [TicketProcessor] methods *)

Section Worker.

Variable E : env.
Variable cfg : config.

(** [fetch_ticket_from_s3]: boto3 rejects a non-str bucket or key before
    any request; a missing object, bytes that are not JSON, and a JSON value
    that is not a dict ([ticket.get] in the log line) all raise. *)
Definition fetch_ticket_from_s3 (bucket key : json) : M (list (string * json)) :=
  fun st =>
    match bucket, key with
    | JStr b, JStr k =>
        match s3 st !! (b, k) with
        | Some (Some (JObj ticket)) => (inr ticket, st)
        | _ => (inl FetchError, st)
        end
    | _, _ => (inl FetchError, st)
    end.

Definition blob_key (ticket_id : string) : string := ticket_id ++ ".json".

(** [store_results]: [table.put_item] of the projection, then
    [s3.put_object] of the full record under ["{ticket_id}.json"]. *)
Definition store_results (enriched : EnrichedTicket.t) : M unit :=
  fun st =>
    let tid := EnrichedTicket.ticket_id enriched in
    let dynamo_item := from_enriched enriched in
    if put_item_fails E dynamo_item then (inl StorageError, st)
    else
      let st1 := set_table st (<[(DynamoDBTicket.ticket_id dynamo_item,
                                   DynamoDBTicket.created_at dynamo_item) := dynamo_item]>
                                 (table st)) in
      if put_object_fails E (enriched_bucket cfg) (blob_key tid) then (inl StorageError, st1)
      else (inr tt, set_s3 st1 (<[(enriched_bucket cfg, blob_key tid) :=
                                   Some (enriched_json enriched)]> (s3 st1))).

(** Lines 240-246: the (bucket, key) read from one record; [None] is the
    [KeyError], [TypeError] or [AttributeError] raised on the way. *)
Definition record_target (record : json) : option (json * json) :=
  match py_in "s3" record with
  | None => None
  | Some true =>
      s3v ← getitem record "s3";
      b ← getitem s3v "bucket";
      bucket ← getitem b "name";
      o ← getitem s3v "object";
      key ← getitem o "key";
      Some (bucket, key)
  | Some false =>
      match record with
      | JObj kvs =>
          let key := match dict_get kvs "key" with
                     | Some v => v
                     | None => match dict_get kvs "Key" with Some v => v | None => JNull end
                     end in
          Some (JStr (raw_bucket cfg), key)
      | _ => None
      end
  end.

(** One unit: fetch, process, store, count. *)
Definition process_unit (bucket key : json) : M unit :=
  raw_ticket ← fetch_ticket_from_s3 bucket key;
  enriched ← lift_sum (process_ticket E raw_ticket);
  store_results enriched;;
  modify incr_processed.

(** The [for record in body["Records"]] loop. *)
Fixpoint run_records (records : list json) : M unit :=
  match records with
  | [] => mret tt
  | record :: records' =>
      target ← lift ParseError (record_target record);
      process_unit (fst target) (snd target);;
      run_records records'
  end.

Record message := { Body : option json; ReceiptHandle : string }.

(** The [try] body up to the delete: [json.loads(message["Body"])] ([None]
    is a [JSONDecodeError]) and the [if "Records" in body] branch. *)
Definition message_body (body : option json) : M unit :=
  match body with
  | None => raise ParseError
  | Some b =>
      match py_in "Records" b with
      | None => raise ParseError
      | Some false => mret tt
      | Some true =>
          match getitem b "Records" with
          | None => raise ParseError
          | Some rs =>
              match py_iter rs with
              | None => raise ParseError
              | Some records => run_records records
              end
          end
      end
  end.

(** [sqs.delete_message]: the request is issued, then it may raise. *)
Definition delete_message (receipt : string) : M unit :=
  fun st =>
    let st' := add_delete_request st receipt in
    if delete_message_fails E receipt then (inl DeleteError, st') else (inr tt, st').

Definition message_prog (m : message) : M unit :=
  message_body (Body m);;
  delete_message (ReceiptHandle m).

(** One iteration of [for message in messages] with its [except]. *)
Definition handle_message (st : store) (m : message) : store :=
  match message_prog m st with
  | (inl _, st') => incr_failed st'
  | (inr _, st') => st'
  end.

Definition run_batch (messages : list message) (st : store) : store :=
  fold_left handle_message messages st.

(** [poll_and_process]; [received] is [response.get("Messages", [])],
    [None] when [receive_message] raises. *)
Definition poll_and_process (received : option (list message)) (st : store) : nat * store :=
  match received with
  | None => (0%nat, st)
  | Some [] => (0%nat, st)
  | Some messages => (length messages, run_batch messages st)
  end.

End Worker.

(* ------------------------------------------------------------------ *)
(** ** Concrete inputs *)

Definition cfg0 : config := {| raw_bucket := "tickets-raw"; enriched_bucket := "tickets-enriched" |}.

(** Every service answers; the sentiment model says POSITIVE at 0.9. *)
Definition env0 : env := {|
  put_item_fails := fun _ => false;
  put_object_fails := fun _ _ => false;
  delete_message_fails := fun _ => false;
  embedding_model_loads := true;
  encode := fun _ => Some (repeat (1 # 10)%Q 384);
  classifier_loads := true;
  sentiment_pipeline := fun _ => Some ("positive", (9 # 10)%Q);
  generate_summary := fun subject _ => Some subject;
  keyword_matches := fun _ _ => 0%nat;
  utcnow_iso := "2024-01-15T10:30:00" |}.

(** The example document of the spec. *)
Definition sample_ticket : json :=
  JObj [("ticket_id", JStr "T-1"); ("subject", JStr "Cannot login");
        ("body", JStr "Keep getting invalid credentials");
        ("created_at", JInt 1700000000); ("customer_id", JStr "C-1");
        ("metadata", JObj [("source", JStr "email")])].

Definition store0 : store := {|
  s3 := {[("tickets-raw", "T-1.json") := Some sample_ticket]};
  table := ∅; delete_requests := []; tickets_processed := 0%nat; tickets_failed := 0%nat |}.

Definition s3_record (bucket key : string) : json :=
  JObj [("s3", JObj [("bucket", JObj [("name", JStr bucket)]);
                     ("object", JObj [("key", JStr key)])])].

Definition msg (body : json) (h : string) : message := {| Body := Some body; ReceiptHandle := h |}.

Example sample_end_to_end :
  let st := handle_message env0 cfg0 store0
              (msg (JObj [("Records", JArr [s3_record "tickets-raw" "T-1.json"])]) "rh-1") in
  option_map DynamoDBTicket.s3_key (table st !! ("T-1", 1700000000%Z)) = Some "T-1.json" /\
  delete_requests st = ["rh-1"] /\ tickets_processed st = 1%nat.
Proof. vm_compute. auto. Qed.

(** [env0] with [s3.put_object] raising. *)
Definition env_blob_write_fails : env := {|
  put_item_fails := put_item_fails env0;
  put_object_fails := fun _ _ => true;
  delete_message_fails := delete_message_fails env0;
  embedding_model_loads := embedding_model_loads env0;
  encode := encode env0;
  classifier_loads := classifier_loads env0;
  sentiment_pipeline := sentiment_pipeline env0;
  generate_summary := generate_summary env0;
  keyword_matches := keyword_matches env0;
  utcnow_iso := utcnow_iso env0 |}.

Definition sample_kvs : list (string * json) :=
  match sample_ticket with JObj kvs => kvs | _ => [] end.

(* ------------------------------------------------------------------ *)
(** ** Store protocol *)

(** C1 (counterexample): a failure between the two writes of
    [store_results] leaves the projection present and the blob absent. *)
Lemma C1_projection_without_blob :
  match process_ticket env0 sample_kvs with
  | inr e =>
      let '(r, st') := store_results env_blob_write_fails cfg0 e store0 in
      r = inl StorageError /\
      is_Some (table st' !! ("T-1", 1700000000%Z)) /\
      s3 st' !! ("tickets-enriched", "T-1.json") = None
  | inl _ => False
  end.
Proof. vm_compute. split; [reflexivity | split; [eexists; reflexivity | reflexivity]]. Qed.

(** C1 (amended): [store_results] writes the projection first and the
    blob second. Its only outcomes are: both written; the projection written
    and the blob store unchanged (the blob write raised); nothing written
    (the projection write raised). A failed call never changes the blob
    store. *)
Theorem C1_store_results_order (E : env) (cfg : config) (e : EnrichedTicket.t) (st : store) :
  let item := from_enriched e in
  let pk := (EnrichedTicket.ticket_id e, EnrichedTicket.created_at e) in
  let bk := (enriched_bucket cfg, blob_key (EnrichedTicket.ticket_id e)) in
  let '(r, st') := store_results E cfg e st in
  (r = inr tt /\ table st' = <[pk := item]> (table st) /\
     s3 st' = <[bk := Some (enriched_json e)]> (s3 st)) \/
  (r = inl StorageError /\ table st' = <[pk := item]> (table st) /\ s3 st' = s3 st) \/
  (r = inl StorageError /\ table st' = table st /\ s3 st' = s3 st).
Proof.
  unfold store_results; simpl.
  destruct (put_item_fails E (from_enriched e)); [right; right; auto|].
  destruct (put_object_fails E _ _); [right; left; auto | left; auto].
Qed.

(* ------------------------------------------------------------------ *)
(** ** What [process_ticket] returns *)

Lemma conf_ok_bounds (c : Q) : conf_ok c = true -> (0 <= c <= 1)%Q.
Proof.
  unfold conf_ok; intros H; apply andb_true_iff in H as [H1 H2].
  apply Qle_bool_iff in H1, H2; auto.
Qed.

Lemma mk_enrichment_data_inv emb intent ic urgency uc sentiment sc summary pa mv en :
  mk_enrichment_data emb intent ic urgency uc sentiment sc summary pa mv = Some en ->
  EnrichmentData.urgency en = urgency /\
  (0 <= EnrichmentData.intent_confidence en <= 1)%Q /\
  (0 <= EnrichmentData.urgency_confidence en <= 1)%Q /\
  (0 <= EnrichmentData.sentiment_confidence en <= 1)%Q.
Proof.
  unfold mk_enrichment_data.
  destruct (conf_ok ic) eqn:Hi; destruct (conf_ok uc) eqn:Hu; destruct (conf_ok sc) eqn:Hs;
    simpl; try discriminate.
  intros H; injection H as <-; simpl.
  repeat split; apply conf_ok_bounds; assumption.
Qed.

Lemma process_ticket_inv (E : env) (raw : list (string * json)) (e : EnrichedTicket.t) :
  process_ticket E raw = inr e ->
  exists t u uc en,
    validate_raw_ticket raw = Some t /\
    classify_urgency (keyword_matches E) (dict_get raw "priority")
      (RawTicket.subject t) (RawTicket.body t) = Some (u, uc) /\
    EnrichmentData.urgency en = u /\
    (0 <= EnrichmentData.intent_confidence en <= 1)%Q /\
    (0 <= EnrichmentData.urgency_confidence en <= 1)%Q /\
    (0 <= EnrichmentData.sentiment_confidence en <= 1)%Q /\
    e = from_raw t en.
Proof.
  unfold process_ticket.
  destruct (validate_raw_ticket raw) as [t|]; [|discriminate].
  destruct (snd (generate_ticket_embedding E _ _)) as [emb|]; [|discriminate].
  unfold get_classification_summary.
  destruct (classify_intent _ _ _) as [intent ic].
  destruct (classify_urgency _ _ _ _) as [[u uc]|] eqn:Hu; simpl; [|discriminate].
  destruct (classify_sentiment _ _ _) as [[s sc]|]; simpl; [|discriminate].
  destruct (generate_summary E _ _) as [summ|]; [|discriminate].
  destruct (mk_enrichment_data _ _ _ _ _ _ _ _ _ _) as [en|] eqn:Hen; [|discriminate].
  intros H; injection H as <-.
  apply mk_enrichment_data_inv in Hen as (Hurg & Hic & Huc & Hsc).
  exists t, u, uc, en; repeat split; try tauto.
  all: first [exact Hic | exact Huc | exact Hsc | idtac].
Qed.

Lemma urgency_scan_label (matches : string -> string -> nat) (text lvl : string)
    (levels : list (string * list string)) :
  urgency_scan matches text levels = Some lvl -> In lvl (map fst levels).
Proof.
  induction levels as [|[l kws] levels IH]; simpl; [discriminate|].
  destruct (existsb _ kws).
  - intros H; injection H as <-; left; reflexivity.
  - intros H; right; apply IH, H.
Qed.

Lemma classify_urgency_label (matches : string -> string -> nat) (prio : option json)
    (subject body u : string) (uc : Q) :
  classify_urgency matches prio subject body = Some (u, uc) ->
  In u ["critical"; "high"; "medium"; "low"].
Proof.
  unfold classify_urgency.
  destruct (match prio with None => Some "" | Some (JStr p) => Some (lower p) | Some _ => None end)
    as [explicit|]; cbn [mbind option_bind]; [|discriminate].
  destruct (existsb (String.eqb explicit) ["critical"; "high"; "medium"; "low"]) eqn:Hex.
  - intros H; injection H as <- _.
    apply existsb_exists in Hex as (x & Hx & Heq).
    apply String.eqb_eq in Heq; subst; exact Hx.
  - destruct (blank _).
    + intros H; injection H as <- _; simpl; auto.
    + destruct (urgency_scan matches _ URGENCY_KEYWORDS) as [lvl|] eqn:Hs.
      * intros H; injection H as <- _.
        apply urgency_scan_label in Hs; exact Hs.
      * intros H; injection H as <- _; simpl; auto.
Qed.

(** C9: every enrichment the pipeline produces has its three confidences
    in [0,1] and an urgency among critical, high, medium, low. *)
Theorem C9_enrichment_bounds (E : env) (raw : list (string * json)) (e : EnrichedTicket.t) :
  process_ticket E raw = inr e ->
  let en := EnrichedTicket.enrichment e in
  (0 <= EnrichmentData.intent_confidence en <= 1)%Q /\
  (0 <= EnrichmentData.urgency_confidence en <= 1)%Q /\
  (0 <= EnrichmentData.sentiment_confidence en <= 1)%Q /\
  In (EnrichmentData.urgency en) ["critical"; "high"; "medium"; "low"].
Proof.
  intros H.
  destruct (process_ticket_inv E raw e H) as (t & u & uc & en & _ & Hu & Hurg & Hic & Huc & Hsc & ->).
  simpl; repeat split; try apply Hic; try apply Huc; try apply Hsc.
  rewrite Hurg; eapply classify_urgency_label; exact Hu.
Qed.

Lemma C9_enrichment_bounds_witness :
  exists e, process_ticket env0 sample_kvs = inr e /\
  let en := EnrichedTicket.enrichment e in
  (0 <= EnrichmentData.intent_confidence en <= 1)%Q /\
  (0 <= EnrichmentData.urgency_confidence en <= 1)%Q /\
  (0 <= EnrichmentData.sentiment_confidence en <= 1)%Q /\
  In (EnrichmentData.urgency en) ["critical"; "high"; "medium"; "low"].
Proof.
  destruct (process_ticket env0 sample_kvs) as [|e] eqn:H.
  - vm_compute in H; discriminate.
  - exists e; split; [reflexivity | exact (C9_enrichment_bounds env0 sample_kvs e H)].
Defined.

(* ------------------------------------------------------------------ *)
(** ** Storage keys *)

Lemma store_results_ok_effect (E : env) (cfg : config) (e : EnrichedTicket.t) (st st' : store) :
  store_results E cfg e st = (inr tt, st') ->
  table st' = <[(EnrichedTicket.ticket_id e, EnrichedTicket.created_at e) := from_enriched e]> (table st) /\
  s3 st' = <[(enriched_bucket cfg, blob_key (EnrichedTicket.ticket_id e)) :=
              Some (enriched_json e)]> (s3 st).
Proof.
  unfold store_results.
  destruct (put_item_fails E (from_enriched e)); [discriminate|].
  destruct (put_object_fails E _ _); [discriminate|].
  intros H; injection H as <-; simpl; auto.
Qed.

(** C8: both keys are functions of the validated raw ticket: the
    projection key is (ticket_id, created_at), the blob key and the
    projection's [s3_key] are ["{ticket_id}.json"]. Storing two results of
    the same raw document (a redelivery, possibly with other model outputs
    and another timestamp) leaves exactly the maps one store of the second
    result gives: the second write overwrites the first. *)
Theorem C8_storage_keys_idempotent (E1 E2 : env) (cfg : config) (raw : list (string * json))
    (e1 e2 : EnrichedTicket.t) (st st1 st2 : store) :
  process_ticket E1 raw = inr e1 ->
  process_ticket E2 raw = inr e2 ->
  store_results E1 cfg e1 st = (inr tt, st1) ->
  store_results E2 cfg e2 st1 = (inr tt, st2) ->
  exists t, validate_raw_ticket raw = Some t /\
    let pk := (RawTicket.ticket_id t, RawTicket.created_at t) in
    let bk := (enriched_bucket cfg, blob_key (RawTicket.ticket_id t)) in
    (forall e, e = e1 \/ e = e2 ->
       (DynamoDBTicket.ticket_id (from_enriched e), DynamoDBTicket.created_at (from_enriched e)) = pk /\
       DynamoDBTicket.s3_key (from_enriched e) = blob_key (RawTicket.ticket_id t)) /\
    table st2 = <[pk := from_enriched e2]> (table st) /\
    s3 st2 = <[bk := Some (enriched_json e2)]> (s3 st).
Proof.
  intros H1 H2 S1 S2.
  destruct (process_ticket_inv E1 raw e1 H1) as (t & _ & _ & en1 & Hv & _ & _ & _ & _ & _ & ->).
  destruct (process_ticket_inv E2 raw e2 H2) as (t' & _ & _ & en2 & Hv' & _ & _ & _ & _ & _ & ->).
  rewrite Hv in Hv'; injection Hv' as <-.
  apply store_results_ok_effect in S1 as [T1 B1].
  apply store_results_ok_effect in S2 as [T2 B2].
  exists t; split; [exact Hv|]; simpl in *.
  split; [|split].
  - intros e [-> | ->]; simpl; auto.
  - rewrite T2, T1; apply insert_insert_eq.
  - rewrite B2, B1; apply insert_insert_eq.
Qed.

Lemma C8_storage_keys_idempotent_witness :
  exists e1 e2 st1 st2,
  process_ticket env0 sample_kvs = inr e1 /\
  process_ticket env0 sample_kvs = inr e2 /\
  store_results env0 cfg0 e1 store0 = (inr tt, st1) /\
  store_results env0 cfg0 e2 st1 = (inr tt, st2) /\
  exists t, validate_raw_ticket sample_kvs = Some t /\
    let pk := (RawTicket.ticket_id t, RawTicket.created_at t) in
    let bk := (enriched_bucket cfg0, blob_key (RawTicket.ticket_id t)) in
    (forall e, e = e1 \/ e = e2 ->
       (DynamoDBTicket.ticket_id (from_enriched e), DynamoDBTicket.created_at (from_enriched e)) = pk /\
       DynamoDBTicket.s3_key (from_enriched e) = blob_key (RawTicket.ticket_id t)) /\
    table st2 = <[pk := from_enriched e2]> (table store0) /\
    s3 st2 = <[bk := Some (enriched_json e2)]> (s3 store0).
Proof.
  destruct (process_ticket env0 sample_kvs) as [|e] eqn:H.
  - vm_compute in H; discriminate.
  - assert (OK : forall st, store_results env0 cfg0 e st = (inr tt, snd (store_results env0 cfg0 e st)))
      by (intros st; unfold store_results; cbn [put_item_fails put_object_fails env0]; reflexivity).
    exists e, e, (snd (store_results env0 cfg0 e store0)),
      (snd (store_results env0 cfg0 e (snd (store_results env0 cfg0 e store0)))).
    do 4 (split; [first [reflexivity | apply OK]|]).
    exact (C8_storage_keys_idempotent env0 env0 cfg0 sample_kvs e e store0 _ _ H H (OK _) (OK _)).
Defined.

(* ------------------------------------------------------------------ *)
(** ** Embedding of empty text *)

Lemma blank_app (s t : string) : blank (s ++ t) = blank s && blank t.
Proof.
  induction s as [|a s IH]; [reflexivity|].
  unfold blank in *; simpl; rewrite IH; apply andb_assoc.
Qed.





(* ------------------------------------------------------------------ *)
(** ** The units of a message *)

(** The Notification Parser of the spec (section 4.1), read off the
    branches of [poll_and_process]: the (container, key) units a message
    body encodes, [None] for a parse error. A unit needs a str container
    and a str key (boto3 rejects anything else). This is a view of the
    source loop, which parses and processes records alternately; the
    lemmas below relate the two. *)
Definition unit_of_record (cfg : config) (record : json) : option (string * string) :=
  match record_target cfg record with
  | Some (JStr b, JStr k) => Some (b, k)
  | _ => None
  end.

Definition message_units (cfg : config) (body : option json) : option (list (string * string)) :=
  match body with
  | None => None
  | Some b =>
      match py_in "Records" b with
      | None => None
      | Some false => Some []
      | Some true =>
          rs ← getitem b "Records";
          records ← py_iter rs;
          mapM (unit_of_record cfg) records
      end
  end.

(** The units processed one after the other, stopping at the first that
    raises. *)
Fixpoint run_units (E : env) (cfg : config) (us : list (string * string)) : M unit :=
  match us with
  | [] => mret tt
  | (b, k) :: us' => process_unit E cfg (JStr b) (JStr k);; run_units E cfg us'
  end.

Ltac mstep := cbn [mbind M_bind mret M_ret lift raise lift_sum modify].

Lemma bind_apply {A B} (m : M A) (k : A -> M B) (st : store) :
  (m ≫= k) st = match m st with (inl e, st') => (inl e, st') | (inr x, st') => k x st' end.
Proof. reflexivity. Qed.

Lemma run_records_units (E : env) (cfg : config) (records : list json) :
  forall (us : list (string * string)) (st : store),
  mapM (unit_of_record cfg) records = Some us ->
  run_records E cfg records st = run_units E cfg us st.
Proof.
  induction records as [|r records IH]; intros us st H.
  - injection H as <-; reflexivity.
  - simpl in H.
    destruct (unit_of_record cfg r) as [[b k]|] eqn:Hu; [|discriminate].
    simpl in H; destruct (mapM (unit_of_record cfg) records) as [us'|] eqn:Hm; [|discriminate].
    simpl in H; injection H as <-.
    unfold unit_of_record in Hu.
    destruct (record_target cfg r) as [[[| | | |b'| |] [| | | |k'| |]]|] eqn:Ht; try discriminate.
    injection Hu as <- <-.
    simpl run_records; simpl run_units.
    rewrite bind_apply, Ht; mstep; cbn [fst snd].
    rewrite !bind_apply.
    destruct (process_unit E cfg (JStr b') (JStr k') st) as [[e|[]] st'].
    + reflexivity.
    + apply IH; reflexivity.
Qed.

Lemma run_records_fails (E : env) (cfg : config) (records : list json) :
  forall (st : store),
  mapM (unit_of_record cfg) records = None ->
  exists e st', run_records E cfg records st = (inl e, st').
Proof.
  induction records as [|r records IH]; intros st H; [discriminate|].
  simpl in H; simpl run_records; rewrite bind_apply.
  destruct (unit_of_record cfg r) as [[b k]|] eqn:Hu.
  - assert (Ht : record_target cfg r = Some (JStr b, JStr k)).
    { unfold unit_of_record in Hu.
      destruct (record_target cfg r) as [[[| | | |b'| |] [| | | |k'| |]]|]; try discriminate.
      injection Hu as <- <-; reflexivity. }
    rewrite Ht; mstep; cbn [fst snd]; rewrite bind_apply.
    simpl in H; destruct (mapM (unit_of_record cfg) records) eqn:Hm; [discriminate|].
    destruct (process_unit E cfg (JStr b) (JStr k) st) as [[e|[]] st']; eauto.
  - unfold unit_of_record in Hu.
    destruct (record_target cfg r) as [[bucket key]|]; mstep; cbn [fst snd]; [|eauto].
    rewrite bind_apply.
    destruct bucket as [| | | |b| |]; destruct key as [| | | |k| |]; try discriminate;
      simpl; unfold fetch_ticket_from_s3; eauto.
Qed.

Lemma message_body_units (E : env) (cfg : config) (body : option json)
    (us : list (string * string)) (st : store) :
  message_units cfg body = Some us ->
  message_body E cfg body st = run_units E cfg us st.
Proof.
  destruct body as [b|]; simpl; [|discriminate].
  destruct (py_in "Records" b) as [[]|]; simpl; try discriminate.
  - destruct (getitem b "Records") as [rs|]; simpl; [|discriminate].
    destruct (py_iter rs) as [records|]; simpl; [|discriminate].
    apply run_records_units.
  - intros H; injection H as <-; reflexivity.
Qed.

Lemma message_body_fails (E : env) (cfg : config) (body : option json) (st : store) :
  message_units cfg body = None ->
  exists e st', message_body E cfg body st = (inl e, st').
Proof.
  destruct body as [b|]; simpl; [|eauto].
  destruct (py_in "Records" b) as [[]|]; simpl; try discriminate; [|eauto].
  destruct (getitem b "Records") as [rs|]; simpl; [|eauto].
  destruct (py_iter rs) as [records|]; simpl; [|eauto].
  apply run_records_fails.
Qed.

(** A computation that leaves one observation [f] of the store unchanged. *)
Definition keeps {A B} (f : store -> B) (m : M A) : Prop :=
  forall st, f (snd (m st)) = f st.

Lemma keeps_bind {A B C} (f : store -> C) (m : M A) (k : A -> M B) :
  keeps f m -> (forall x, keeps f (k x)) -> keeps f (m ≫= k).
Proof.
  intros Hm Hk st; rewrite bind_apply.
  specialize (Hm st); destruct (m st) as [[e|x] st']; simpl in *; [exact Hm|].
  rewrite Hk; exact Hm.
Qed.

Lemma keeps_ret {A C} (f : store -> C) (x : A) : keeps f (mret x).
Proof. intros st; reflexivity. Qed.

Section Keeps.
Variable C : Type.
Variable f : store -> C.
Hypothesis f_table : forall st t, f (set_table st t) = f st.
Hypothesis f_s3 : forall st m, f (set_s3 st m) = f st.
Hypothesis f_processed : forall st, f (incr_processed st) = f st.

Lemma keeps_process_unit (E : env) (cfg : config) (b k : json) :
  keeps f (process_unit E cfg b k).
Proof.
  unfold process_unit.
  apply keeps_bind.
  { intros st; unfold fetch_ticket_from_s3.
    destruct b as [| | | |b| |]; destruct k as [| | | |k| |]; try reflexivity.
    destruct (s3 st !! (b, k)) as [[[| | | | | |]|]|]; reflexivity. }
  intros raw; apply keeps_bind.
  { intros st; destruct (process_ticket E raw); reflexivity. }
  intros en; apply keeps_bind.
  { intros st; unfold store_results.
    destruct (put_item_fails E _); [reflexivity|].
    destruct (put_object_fails E _ _); simpl; [apply f_table|].
    rewrite f_s3; apply f_table. }
  intros _ st; apply f_processed.
Qed.

Lemma keeps_run_records (E : env) (cfg : config) (records : list json) :
  keeps f (run_records E cfg records).
Proof.
  induction records as [|r records IH]; simpl; [apply keeps_ret|].
  apply keeps_bind.
  { intros st; destruct (record_target cfg r); reflexivity. }
  intros t; apply keeps_bind; [apply keeps_process_unit|].
  intros _; exact IH.
Qed.

Lemma keeps_message_body (E : env) (cfg : config) (body : option json) :
  keeps f (message_body E cfg body).
Proof.
  intros st; destruct body as [b|]; simpl; [|reflexivity].
  destruct (py_in "Records" b) as [[]|]; simpl; try reflexivity.
  destruct (getitem b "Records") as [rs|]; simpl; [|reflexivity].
  destruct (py_iter rs) as [records|]; simpl; [|reflexivity].
  apply keeps_run_records.
Qed.

End Keeps.

Lemma keeps_deletes_message_body (E : env) (cfg : config) (body : option json) :
  keeps delete_requests (message_body E cfg body).
Proof. apply keeps_message_body; reflexivity. Qed.

Lemma keeps_failed_message_body (E : env) (cfg : config) (body : option json) :
  keeps tickets_failed (message_body E cfg body).
Proof. apply keeps_message_body; reflexivity. Qed.

Lemma keeps_failed_process_unit (E : env) (cfg : config) (b k : json) :
  keeps tickets_failed (process_unit E cfg b k).
Proof. apply keeps_process_unit; reflexivity. Qed.

(** The outcome of one message: its receipt is requested for deletion
    exactly when its body ran without raising. *)
Lemma handle_message_deletes (E : env) (cfg : config) (st : store) (m : message) :
  delete_requests (handle_message E cfg st m) =
  match fst (message_body E cfg (Body m) st) with
  | inr _ => ReceiptHandle m :: delete_requests st
  | inl _ => delete_requests st
  end.
Proof.
  unfold handle_message, message_prog.
  rewrite bind_apply.
  pose proof (keeps_deletes_message_body E cfg (Body m) st) as K.
  destruct (message_body E cfg (Body m) st) as [[e|[]] st1]; simpl in *.
  - exact K.
  - unfold delete_message.
    destruct (delete_message_fails E (ReceiptHandle m)); simpl; rewrite K; reflexivity.
Qed.

Lemma cons_neq {A} (x : A) (l : list A) : x :: l <> l.
Proof. intros H; apply (f_equal (@length A)) in H; simpl in H; lia. Qed.

(** C2: a message is acknowledged ([delete_message] is called with its
    receipt handle) if and only if its body encodes a list of units and all
    of them, run in order, were fetched, processed and written to both
    stores. In particular, when some unit raises, however many units the
    message has, it is not acknowledged. *)
Theorem C2_ack_iff_all_units_written (E : env) (cfg : config) (st : store) (m : message) :
  delete_requests (handle_message E cfg st m) = ReceiptHandle m :: delete_requests st <->
  exists us, message_units cfg (Body m) = Some us /\ fst (run_units E cfg us st) = inr tt.
Proof.
  rewrite handle_message_deletes.
  destruct (message_units cfg (Body m)) as [us|] eqn:Hu.
  - rewrite (message_body_units E cfg (Body m) us st Hu).
    destruct (run_units E cfg us st) as [[e|[]] st1] eqn:Hrun; simpl.
    + split; [intros H; symmetry in H; apply cons_neq in H; contradiction|].
      intros (us' & Hus & Hr); injection Hus as <-.
      rewrite Hrun in Hr; discriminate.
    + split; [intros _; exists us; split; [reflexivity | rewrite Hrun; reflexivity] | reflexivity].
  - destruct (message_body_fails E cfg (Body m) st Hu) as (e & st1 & ->); simpl.
    split; [intros H; symmetry in H; apply cons_neq in H; contradiction|].
    intros (us' & Hus & _); discriminate.
Qed.

(* ------------------------------------------------------------------ *)
(** ** Message shapes *)

(** C3 (counterexample): a top-level direct reference [{"key": "T-1.json"}]
    to a ticket present in the raw container is acknowledged without any
    unit being fetched or stored. *)
Lemma C3_top_level_key_not_processed :
  let st := handle_message env0 cfg0 store0 (msg (JObj [("key", JStr "T-1.json")]) "rh-1") in
  delete_requests st = ["rh-1"] /\
  table st !! ("T-1", 1700000000%Z) = None /\
  s3 st !! ("tickets-enriched", "T-1.json") = None /\
  tickets_processed st = 0%nat.
Proof. vm_compute. auto. Qed.

(** C3 (amended): a record of the "Records" list without an "s3" member
    is a direct reference: its unit is the configured raw container and the
    record's "key" (or, without "key", its "Key"), processed like any other
    unit. A body without "Records", such as a top-level
    [{"key": k}], encodes no unit: nothing is fetched or stored, and the
    message is acknowledged. *)
Theorem C3_direct_reference (E : env) (cfg : config) (st : store)
    (kvs : list (string * json)) (k h : string) :
  dict_has kvs "s3" = false ->
  dict_has kvs "Records" = false ->
  (dict_get kvs "key" = Some (JStr k) \/
   (dict_get kvs "key" = None /\ dict_get kvs "Key" = Some (JStr k))) ->
  (message_units cfg (Some (JObj [("Records", JArr [JObj kvs])])) = Some [(raw_bucket cfg, k)] /\
   message_body E cfg (Some (JObj [("Records", JArr [JObj kvs])])) st =
     (process_unit E cfg (JStr (raw_bucket cfg)) (JStr k);; mret tt) st) /\
  (message_units cfg (Some (JObj kvs)) = Some [] /\
   let st' := handle_message E cfg st (msg (JObj kvs) h) in
   s3 st' = s3 st /\ table st' = table st /\
   tickets_processed st' = tickets_processed st /\
   delete_requests st' = h :: delete_requests st).
Proof.
  intros Hs3 HR Hk.
  assert (Hu : message_units cfg (Some (JObj [("Records", JArr [JObj kvs])])) =
               Some [(raw_bucket cfg, k)]).
  { simpl. unfold unit_of_record, record_target; simpl; rewrite Hs3.
    destruct Hk as [-> | [-> ->]]; reflexivity. }
  split; [split; [exact Hu|]|].
  - rewrite (message_body_units E cfg _ _ st Hu); reflexivity.
  - split; [simpl; rewrite HR; reflexivity|].
    unfold handle_message, message_prog; simpl; rewrite HR; simpl.
    unfold delete_message.
    destruct (delete_message_fails E h); simpl; auto.
Qed.

Lemma C3_direct_reference_witness :
  dict_has [("key", JStr "T-1.json")] "s3" = false /\
  (message_units cfg0 (Some (JObj [("Records", JArr [JObj [("key", JStr "T-1.json")]])])) =
     Some [("tickets-raw", "T-1.json")] /\
   message_body env0 cfg0 (Some (JObj [("Records", JArr [JObj [("key", JStr "T-1.json")]])])) store0 =
     (process_unit env0 cfg0 (JStr "tickets-raw") (JStr "T-1.json");; mret tt) store0) /\
  (message_units cfg0 (Some (JObj [("key", JStr "T-1.json")])) = Some [] /\
   let st' := handle_message env0 cfg0 store0 (msg (JObj [("key", JStr "T-1.json")]) "rh-1") in
   s3 st' = s3 store0 /\ table st' = table store0 /\
   tickets_processed st' = tickets_processed store0 /\
   delete_requests st' = "rh-1" :: delete_requests store0).
Proof.
  split; [reflexivity|].
  exact (C3_direct_reference env0 cfg0 store0 [("key", JStr "T-1.json")] "T-1.json" "rh-1"
           eq_refl eq_refl (or_introl eq_refl)).
Defined.

Lemma run_records_app (E : env) (cfg : config) (l1 l2 : list json) (st : store) :
  run_records E cfg (l1 ++ l2) st =
  match run_records E cfg l1 st with
  | (inl e, st') => (inl e, st')
  | (inr _, st') => run_records E cfg l2 st'
  end.
Proof.
  revert st; induction l1 as [|r l1 IH]; intros st; [reflexivity|].
  simpl; rewrite !bind_apply.
  destruct (lift ParseError (record_target cfg r) st) as [[e|t] st1]; [reflexivity|].
  rewrite !bind_apply.
  destruct (process_unit E cfg (fst t) (snd t) st1) as [[e|[]] st2]; [reflexivity|].
  apply IH.
Qed.

Lemma run_records_bad_head (E : env) (cfg : config) (bad : json) (post : list json) (st : store) :
  unit_of_record cfg bad = None ->
  exists e, run_records E cfg (bad :: post) st = (inl e, st).
Proof.
  intros Hb; unfold unit_of_record in Hb; simpl; rewrite bind_apply.
  destruct (record_target cfg bad) as [[bucket key]|]; mstep; cbn [fst snd]; [|eauto].
  rewrite !bind_apply.
  destruct bucket as [| | | |b| |]; destruct key as [| | | |k| |]; try discriminate;
    simpl; unfold fetch_ticket_from_s3; eauto.
Qed.

(** C4 (counterexample): in [{"Records": [{"key": "T-1.json"}, {"s3": {}}]}]
    the second record is unparsable, yet the first unit has already been
    stored when the message fails; the message is not acknowledged. *)
Lemma C4_earlier_units_stored :
  let st := handle_message env0 cfg0 store0
              (msg (JObj [("Records", JArr [JObj [("key", JStr "T-1.json")]; JObj [("s3", JObj [])]])])
                   "rh-1") in
  is_Some (table st !! ("T-1", 1700000000%Z)) /\
  is_Some (s3 st !! ("tickets-enriched", "T-1.json")) /\
  tickets_processed st = 1%nat /\
  delete_requests st = [].
Proof. vm_compute. split; [eexists; reflexivity | split; [eexists; reflexivity | auto]]. Qed.

(** C4 (amended): an unparsable record (no container name or object key,
    a non-dict record, a non-str container or key) fails the whole
    message: neither it nor any later record is processed, and the message
    is not acknowledged. The records before it have been processed as usual
    (and stay stored), so the message ends in exactly the state the records
    before it produce, with one more failure counted. *)
Theorem C4_bad_record_stops_message (E : env) (cfg : config) (st : store)
    (kvs : list (string * json)) (h : string) (pre : list json) (bad : json) (post : list json) :
  dict_get kvs "Records" = Some (JArr (pre ++ bad :: post)) ->
  unit_of_record cfg bad = None ->
  handle_message E cfg st {| Body := Some (JObj kvs); ReceiptHandle := h |} =
  incr_failed (snd (run_records E cfg pre st)).
Proof.
  intros HR Hb.
  unfold handle_message, message_prog; cbn [Body ReceiptHandle]; rewrite bind_apply.
  unfold message_body; cbn [py_in getitem]; unfold dict_has; rewrite HR; cbn [py_iter].
  rewrite run_records_app.
  destruct (run_records E cfg pre st) as [[e|[]] st1]; [reflexivity|].
  destruct (run_records_bad_head E cfg bad post st1 Hb) as [e ->]; reflexivity.
Qed.

Lemma C4_bad_record_stops_message_witness :
  handle_message env0 cfg0 store0
    {| Body := Some (JObj [("Records", JArr ([s3_record "tickets-raw" "T-1.json"] ++
                                              JObj [("s3", JObj [])] :: []))]);
       ReceiptHandle := "rh-1" |} =
  incr_failed (snd (run_records env0 cfg0 [s3_record "tickets-raw" "T-1.json"] store0)).
Proof.
  exact (C4_bad_record_stops_message env0 cfg0 store0
           [("Records", JArr ([s3_record "tickets-raw" "T-1.json"] ++ JObj [("s3", JObj [])] :: []))] "rh-1"
           [s3_record "tickets-raw" "T-1.json"] (JObj [("s3", JObj [])]) [] eq_refl eq_refl).
Defined.

(* ------------------------------------------------------------------ *)
(** ** Schema validation *)










(* ------------------------------------------------------------------ *)
(** ** The batch loop *)

Lemma run_batch_app (E : env) (cfg : config) (l1 l2 : list message) (st : store) :
  run_batch E cfg (l1 ++ l2)%list st = run_batch E cfg l2 (run_batch E cfg l1 st).
Proof. unfold run_batch; apply fold_left_app. Qed.

(** C6: when message [m] of a batch fails in its body (parse, fetch,
    validation, enrichment or storage error), [poll_and_process] still
    handles every later message, starting from the state [m] left, and
    reports the whole batch; [m] is not acknowledged; and every other
    message whose units all succeed is acknowledged when its turn comes. *)
Theorem C6_batch_isolation (E : env) (cfg : config) (pre : list message) (m : message)
    (post : list message) (st : store) :
  let s_m := run_batch E cfg pre st in
  (exists e, fst (message_body E cfg (Body m) s_m) = inl e) ->
  poll_and_process E cfg (Some (pre ++ m :: post)%list) st =
    (length (pre ++ m :: post)%list, run_batch E cfg post (handle_message E cfg s_m m)) /\
  delete_requests (handle_message E cfg s_m m) = delete_requests s_m /\
  (forall (m' : message) (s : store), In m' (pre ++ post)%list ->
     fst (message_body E cfg (Body m') s) = inr tt ->
     delete_requests (handle_message E cfg s m') = ReceiptHandle m' :: delete_requests s).
Proof.
  intros s_m [e He].
  split; [|split].
  - unfold poll_and_process.
    destruct (pre ++ m :: post)%list as [|m0 l] eqn:Hl; [destruct pre; discriminate|].
    rewrite <- Hl, run_batch_app; reflexivity.
  - rewrite handle_message_deletes, He; reflexivity.
  - intros m' s _ Hok; rewrite handle_message_deletes, Hok; reflexivity.
Qed.

Definition good_message : message :=
  msg (JObj [("Records", JArr [s3_record "tickets-raw" "T-1.json"])]) "rh-1".

Definition malformed_message : message := {| Body := None; ReceiptHandle := "rh-2" |}.

Lemma C6_batch_isolation_witness :
  let s_m := run_batch env0 cfg0 [good_message] store0 in
  poll_and_process env0 cfg0 (Some ([good_message] ++ malformed_message :: [good_message])%list) store0 =
    (3%nat, run_batch env0 cfg0 [good_message] (handle_message env0 cfg0 s_m malformed_message)) /\
  delete_requests (handle_message env0 cfg0 s_m malformed_message) = delete_requests s_m /\
  (forall (m' : message) (s : store), In m' ([good_message] ++ [good_message])%list ->
     fst (message_body env0 cfg0 (Body m') s) = inr tt ->
     delete_requests (handle_message env0 cfg0 s m') = ReceiptHandle m' :: delete_requests s).
Proof.
  exact (C6_batch_isolation env0 cfg0 [good_message] malformed_message [good_message] store0
           (ex_intro _ ParseError eq_refl)).
Defined.

(* ------------------------------------------------------------------ *)
(** ** Statistics *)

(** [env0] with [sqs.delete_message] raising. *)
Definition env_delete_fails : env := {|
  put_item_fails := put_item_fails env0;
  put_object_fails := put_object_fails env0;
  delete_message_fails := fun _ => true;
  embedding_model_loads := embedding_model_loads env0;
  encode := encode env0;
  classifier_loads := classifier_loads env0;
  sentiment_pipeline := sentiment_pipeline env0;
  generate_summary := generate_summary env0;
  keyword_matches := keyword_matches env0;
  utcnow_iso := utcnow_iso env0 |}.

(** C7 (counterexample): a one-unit message whose unit is stored but
    whose [delete_message] raises counts one processed ticket and one failed
    ticket, although no unit failed. *)
Lemma C7_failed_counts_messages :
  let st := handle_message env_delete_fails cfg0 store0 good_message in
  is_Some (table st !! ("T-1", 1700000000%Z)) /\
  is_Some (s3 st !! ("tickets-enriched", "T-1.json")) /\
  tickets_processed st = 1%nat /\ tickets_failed st = 1%nat.
Proof. vm_compute. split; [eexists; reflexivity | split; [eexists; reflexivity | auto]]. Qed.

(** C7 (amended): [tickets_processed] grows by one inside each unit whose
    [store_results] returned, whatever becomes of the message, and
    acknowledging does not change it; [tickets_failed] grows by exactly one
    per message whose handling raised anywhere (parse error, the first
    failing unit, or a raising [delete_message]) and is never touched by
    the units themselves. *)
Theorem C7_stats_granularity (E : env) (cfg : config) (st : store) (m : message) (b k : json) :
  (let '(r, st') := process_unit E cfg b k st in
   tickets_processed st' = (tickets_processed st + match r with inr _ => 1 | inl _ => 0 end)%nat /\
   tickets_failed st' = tickets_failed st) /\
  tickets_failed (handle_message E cfg st m) =
    (tickets_failed st + match fst (message_prog E cfg m st) with inl _ => 1 | inr _ => 0 end)%nat /\
  tickets_processed (handle_message E cfg st m) =
    tickets_processed (snd (message_body E cfg (Body m) st)).
Proof.
  split; [|split].
  - pose proof (keeps_failed_process_unit E cfg b k st) as Kf.
    unfold process_unit in *.
    rewrite !bind_apply in *.
    destruct (fetch_ticket_from_s3 b k st) as [[e|raw] st1] eqn:Hf; simpl in *.
    + unfold fetch_ticket_from_s3 in Hf.
      destruct b as [| | | |b| |]; destruct k as [| | | |k| |];
        try (injection Hf as _ <-; lia).
      destruct (s3 st !! (b, k)) as [[[| | | | | |kvs]|]|]; injection Hf as _ <-; lia.
    + assert (st1 = st) as ->.
      { unfold fetch_ticket_from_s3 in Hf.
        destruct b as [| | | |b| |]; destruct k as [| | | |k| |]; try discriminate.
        destruct (s3 st !! (b, k)) as [[[| | | | | |kvs]|]|]; try discriminate.
        injection Hf as _ <-; reflexivity. }
      rewrite !bind_apply in *.
      destruct (process_ticket E raw) as [e|en]; simpl in *; [lia|].
      rewrite !bind_apply in *.
      unfold store_results in *.
      destruct (put_item_fails E _); simpl in *; [lia|].
      destruct (put_object_fails E _ _); simpl in *; [split; [lia | reflexivity]|].
      split; [lia | reflexivity].
  - unfold handle_message.
    destruct (message_prog E cfg m st) as [r st'] eqn:Hp; simpl.
    assert (Hf : tickets_failed st' = tickets_failed st).
    { unfold message_prog in Hp; rewrite bind_apply in Hp.
      pose proof (keeps_failed_message_body E cfg (Body m) st) as K.
      destruct (message_body E cfg (Body m) st) as [[e|[]] st1]; simpl in K.
      - injection Hp as _ <-; exact K.
      - unfold delete_message in Hp.
        destruct (delete_message_fails E _); injection Hp as _ <-; exact K. }
    destruct r; simpl; lia.
  - unfold handle_message, message_prog; rewrite bind_apply.
    destruct (message_body E cfg (Body m) st) as [[e|[]] st1]; simpl; [reflexivity|].
    unfold delete_message; destruct (delete_message_fails E _); reflexivity.
Qed.

(* ================================================================== *)
(** * Further properties of the pipeline *)

(* ------------------------------------------------------------------ *)
(** ** Strings: [lower], [upper], [split] and [" ".join] *)


Lemma is_space_high (c : ascii) : (33 <= nat_of_ascii c)%nat -> is_space c = false.
Proof.
  intros H; unfold is_space; apply orb_false_iff; split;
    apply andb_false_iff; right; apply Nat.leb_gt; lia.
Qed.

Lemma is_space_lower_char (c : ascii) : is_space (lower_char c) = is_space c.
Proof.
  unfold lower_char.
  destruct ((65 <=? nat_of_ascii c) && (nat_of_ascii c <=? 90))%nat eqn:H; [|reflexivity].
  apply andb_true_iff in H as [H1 H2]; apply Nat.leb_le in H1, H2.
  rewrite !is_space_high; [reflexivity | lia |].
  rewrite nat_ascii_embedding; lia.
Qed.

Lemma blank_lower (s : string) : blank (lower s) = blank s.
Proof.
  unfold blank, lower; rewrite list_ascii_of_string_of_list_ascii.
  induction (list_ascii_of_string s) as [|c l IH]; simpl; [reflexivity|].
  now rewrite is_space_lower_char, IH.
Qed.

Lemma upper_char_idem (c : ascii) : upper_char (upper_char c) = upper_char c.
Proof.
  remember (upper_char c) as u eqn:Hu; unfold upper_char in Hu.
  destruct ((97 <=? nat_of_ascii c) && (nat_of_ascii c <=? 122))%nat eqn:H; subst u.
  - apply andb_true_iff in H as [H1 H2]; apply Nat.leb_le in H1, H2.
    unfold upper_char; rewrite nat_ascii_embedding by lia.
    destruct ((97 <=? nat_of_ascii c - 32) && (nat_of_ascii c - 32 <=? 122))%nat eqn:A;
      [apply andb_true_iff in A as [A _]; apply Nat.leb_le in A; lia | reflexivity].
  - unfold upper_char; rewrite H; reflexivity.
Qed.

Lemma upper_idem (s : string) : upper (upper s) = upper s.
Proof.
  unfold upper; rewrite list_ascii_of_string_of_list_ascii, map_map.
  f_equal; apply map_ext; apply upper_char_idem.
Qed.












(* ------------------------------------------------------------------ *)
(** ** [classify_intent] *)

Lemma classify_text_blank (s b : string) :
  blank (lower (s ++ " " ++ b)) = blank s && blank b.
Proof. rewrite blank_lower, !blank_app; simpl; destruct (blank s); reflexivity. Qed.

Lemma first_max_in (best : string * nat) (l : list (string * nat)) :
  first_max best l = best \/ In (first_max best l) l.
Proof.
  revert best; induction l as [|p l IH]; intros best; simpl; [auto|].
  destruct (snd best <? snd p)%nat.
  - destruct (IH p) as [-> | H]; auto.
  - destruct (IH best) as [-> | H]; auto.
Qed.

(** [first_max] returns the first entry of maximal score. *)
Lemma first_max_spec (l : list (string * nat)) : forall best,
  exists pre name n post,
    best :: l = (pre ++ (name, n) :: post)%list /\ first_max best l = (name, n) /\
    Forall (fun p => (snd p < n)%nat) pre /\ Forall (fun p => (snd p <= n)%nat) post.
Proof.
  induction l as [|p l IH]; intros best.
  - exists [], (fst best), (snd best), []; destruct best; simpl; repeat split; constructor.
  - simpl first_max.
    destruct (snd best <? snd p)%nat eqn:Hlt.
    + apply Nat.ltb_lt in Hlt.
      destruct (IH p) as (pre & name & n & post & Hd & Hf & Hpre & Hpost).
      assert (Hp : (snd p <= n)%nat).
      { destruct pre as [|q pre]; simpl in Hd; injection Hd as Hq _.
        - subst p; simpl; lia.
        - subst q; inversion Hpre; lia. }
      exists (best :: pre), name, n, post.
      split; [simpl; rewrite Hd; reflexivity|].
      split; [exact Hf|]; split; [constructor; [simpl; lia | exact Hpre] | exact Hpost].
    + apply Nat.ltb_ge in Hlt.
      destruct (IH best) as (pre & name & n & post & Hd & Hf & Hpre & Hpost).
      destruct pre as [|q pre]; simpl in Hd; injection Hd as Hq Hl.
      * subst best l; exists [], name, n, (p :: post).
        split; [reflexivity|]; split; [exact Hf|]; split; [constructor|].
        constructor; [simpl in Hlt; exact Hlt | exact Hpost].
      * subst q l; exists (best :: p :: pre), name, n, post.
        inversion Hpre as [|? ? Hb Hpre']; subst.
        split; [reflexivity|]; split; [exact Hf|]; split; [|exact Hpost].
        constructor; [exact Hb | constructor; [lia | exact Hpre']].
Qed.

Lemma intent_scores_in (m : string -> string -> nat) (text : string) (x : string * nat) :
  In x (intent_scores m text) -> In (fst x) (map fst INTENT_KEYWORDS) /\ (1 <= snd x)%nat.
Proof.
  unfold intent_scores; intros Hx.
  apply list_elem_of_In, list_elem_of_filter in Hx as [Hp Hx].
  apply list_elem_of_In, in_map_iff in Hx as [ik [<- Hin]].
  split; [exact (in_map fst _ _ Hin)|].
  apply Is_true_true_1, Nat.ltb_lt in Hp; exact Hp.
Qed.

Lemma intent_confidence_values (n : nat) : (1 <= n)%nat ->
  let c := py_min (inject_Z (Z.of_nat n) / 3) 1 in
  (c == 1 # 3 \/ c == 2 # 3 \/ c == 1)%Q.
Proof.
  intros Hn c; subst c.
  destruct n as [|[|[|n]]]; [lia | left; reflexivity | right; left; reflexivity|].
  right; right.
  assert (H1 : (1 <= inject_Z (Z.of_nat (S (S (S n)))) / 3)%Q).
  { apply Qle_shift_div_l; [reflexivity|].
    rewrite Qmult_1_l; change 3%Q with (inject_Z 3); rewrite <- Zle_Qle; lia. }
  unfold py_min.
  destruct (Qle_bool (inject_Z (Z.of_nat (S (S (S n)))) / 3) 1) eqn:H; simpl; [|reflexivity].
  apply Qle_bool_iff in H; apply Qle_antisym; assumption.
Qed.

(** [classify_intent] returns one of the [INTENT_KEYWORDS] categories or
    ["general_inquiry"], with a confidence among 0, 1/2, 1/3, 2/3 and 1:
    [min(score / 3.0, 1.0)] only takes the values 1/3, 2/3 and 1 on the
    positive integer scores that reach it. *)
Theorem classify_intent_range (m : string -> string -> nat) (subject body : string) :
  let '(label, c) := classify_intent m subject body in
  (label = "general_inquiry" \/ In label (map fst INTENT_KEYWORDS)) /\
  (c == 0 \/ c == 1 # 2 \/ c == 1 # 3 \/ c == 2 # 3 \/ c == 1)%Q.
Proof.
  unfold classify_intent.
  destruct (blank (lower (subject ++ " " ++ body))); [split; [left | left]; reflexivity|].
  destruct (intent_scores m (lower (subject ++ " " ++ body))) as [|p l] eqn:Hs;
    [split; [left | right; left]; reflexivity|].
  assert (Hin : In (first_max p l) (intent_scores m (lower (subject ++ " " ++ body)))).
  { rewrite Hs; destruct (first_max_in p l) as [-> | H]; [left | right]; auto. }
  apply intent_scores_in in Hin as [Hl Hn].
  split; [right; exact Hl|].
  destruct (intent_confidence_values _ Hn) as [H | [H | H]]; auto.
Qed.

(** The intent chosen has the highest score, [max()] keeping the first of
    equal scores in [INTENT_KEYWORDS] order: every category before it
    scores strictly less and every one after it at most as much. Its
    confidence is [min(score / 3, 1)]. *)
Theorem classify_intent_argmax (m : string -> string -> nat) (subject body label : string) (c : Q)
    (H : classify_intent m subject body = (label, c))
    (Hl : label <> "general_inquiry") :
  exists pre n post,
    intent_scores m (lower (subject ++ " " ++ body)) = (pre ++ (label, n) :: post)%list /\
    Forall (fun p => (snd p < n)%nat) pre /\ Forall (fun p => (snd p <= n)%nat) post /\
    c = py_min (inject_Z (Z.of_nat n) / 3) 1.
Proof.
  unfold classify_intent in H.
  destruct (blank (lower (subject ++ " " ++ body))); [injection H as <- _; contradiction|].
  destruct (intent_scores m (lower (subject ++ " " ++ body))) as [|p l] eqn:Hs;
    [injection H as <- _; contradiction|].
  destruct (first_max_spec l p) as (pre & name & n & post & Hd & Hf & Hpre & Hpost).
  rewrite Hf in H; simpl in H; injection H as <- <-.
  exists pre, n, post; auto.
Qed.



(* ------------------------------------------------------------------ *)
(** ** [classify_urgency] *)

Definition URGENCY_LEVELS : list string := ["critical"; "high"; "medium"; "low"].

(** An explicit [priority] naming a level, in any letter case, is used as
    is (lowercased) with confidence 1, whatever subject and body say. *)
Theorem classify_urgency_explicit (m : string -> string -> nat) (p subject body : string)
    (H : In (lower p) URGENCY_LEVELS) :
  classify_urgency m (Some (JStr p)) subject body = Some (lower p, 1%Q).
Proof.
  unfold classify_urgency; cbn [mbind option_bind].
  replace (existsb (String.eqb (lower p)) ["critical"; "high"; "medium"; "low"]) with true;
    [reflexivity|].
  symmetry; apply existsb_exists; exists (lower p); split; [exact H | apply String.eqb_refl].
Qed.

Definition no_match (m : string -> string -> nat) (text : string) (lk : string * list string) : Prop :=
  forall kw, In kw (snd lk) -> m kw text = 0%nat.

Lemma urgency_scan_some (m : string -> string -> nat) (text lvl : string) (levels : list (string * list string)) :
  urgency_scan m text levels = Some lvl ->
  exists pre kws post, levels = (pre ++ (lvl, kws) :: post)%list /\
    (exists kw, In kw kws /\ (0 < m kw text)%nat) /\ Forall (no_match m text) pre.
Proof.
  induction levels as [|[l kws] levels IH]; simpl; [discriminate|].
  destruct (existsb (fun kw => (0 <? m kw text)%nat) kws) eqn:He.
  - intros H; injection H as <-.
    apply existsb_exists in He as [kw [Hk Hm]]; apply Nat.ltb_lt in Hm.
    exists [], kws, levels; split; [reflexivity|]; split; [eauto | constructor].
  - intros H; destruct (IH H) as (pre & kws' & post & -> & Hm & Hpre).
    exists ((l, kws) :: pre), kws', post; split; [reflexivity|]; split; [exact Hm|].
    constructor; [|exact Hpre].
    intros kw Hk; simpl in Hk.
    destruct (m kw text) eqn:Hz; [reflexivity|].
    assert (existsb (fun kw => (0 <? m kw text)%nat) kws = true) as Ht
      by (apply existsb_exists; exists kw; split; [exact Hk | rewrite Hz; reflexivity]).
    congruence.
Qed.

Lemma urgency_scan_none (m : string -> string -> nat) (text : string) (levels : list (string * list string)) :
  urgency_scan m text levels = None -> Forall (no_match m text) levels.
Proof.
  induction levels as [|[l kws] levels IH]; simpl; [constructor|].
  destruct (existsb (fun kw => (0 <? m kw text)%nat) kws) eqn:He; [discriminate|].
  intros H; constructor; [|apply IH, H].
  intros kw Hk; simpl in Hk.
  destruct (m kw text) eqn:Hz; [reflexivity|].
  assert (existsb (fun kw => (0 <? m kw text)%nat) kws = true) as Ht
    by (apply existsb_exists; exists kw; split; [exact Hk | rewrite Hz; reflexivity]).
  congruence.
Qed.

(** Without an explicit level and with some text, the urgency is the first
    level, from critical down to low, one of whose keywords occurs; no
    keyword of a level above it occurs; its confidence is 0.9 for
    critical, 0.8 for high, 0.7 for medium and low. When no keyword of
    any level occurs, the result is medium at 0.6. *)
Theorem classify_urgency_keywords (m : string -> string -> nat) (prio : option json)
    (subject body lvl : string) (c : Q)
    (Hp : prio = None \/ exists p, prio = Some (JStr p) /\ ~ In (lower p) URGENCY_LEVELS)
    (Hb : blank subject && blank body = false)
    (H : classify_urgency m prio subject body = Some (lvl, c)) :
  let text := lower (subject ++ " " ++ body) in
  (exists pre kws post, URGENCY_KEYWORDS = (pre ++ (lvl, kws) :: post)%list /\
     (exists kw, In kw kws /\ (0 < m kw text)%nat) /\ Forall (no_match m text) pre /\
     c = urgency_confidence lvl) \/
  (lvl = "medium" /\ c = (6 # 10)%Q /\ Forall (no_match m text) URGENCY_KEYWORDS).
Proof.
  intros text.
  assert (He : existsb (String.eqb (match prio with Some (JStr p) => lower p | _ => "" end))
                 ["critical"; "high"; "medium"; "low"] = false).
  { destruct Hp as [-> | [p [-> Hn]]]; [reflexivity|].
    apply Bool.not_true_iff_false; intros Ht; apply existsb_exists in Ht as [x [Hx Hq]].
    apply String.eqb_eq in Hq; subst x; contradiction. }
  unfold classify_urgency in H.
  assert (Hprio : match prio with None => Some "" | Some (JStr p) => Some (lower p) | Some _ => None end
                  = Some (match prio with Some (JStr p) => lower p | _ => "" end))
    by (destruct Hp as [-> | [p [-> _]]]; reflexivity).
  rewrite Hprio in H; cbn [mbind option_bind] in H; rewrite He in H.
  rewrite classify_text_blank, Hb in H; fold text in H.
  destruct (urgency_scan m text URGENCY_KEYWORDS) as [l|] eqn:Hs; injection H as <- <-.
  - left; destruct (urgency_scan_some _ _ _ _ Hs) as (pre & kws & post & Hd & Hm & Hpre).
    exists pre, kws, post; auto.
  - right; split; [reflexivity|]; split; [reflexivity|]; apply urgency_scan_none, Hs.
Qed.

(* ------------------------------------------------------------------ *)
(** ** [classify_sentiment] *)

(** A returned sentiment is either NEUTRAL at 0.5 or an upper-case label
    whose score lies outside [0.45, 0.55] (the model's own score): no
    score of that band is ever returned except 0.5. A result needs the
    classifier to load. *)
Theorem classify_sentiment_band (E : env) (subject body label : string) (sc : Q)
    (H : classify_sentiment E subject body = Some (label, sc)) :
  classifier_loads E = true /\
  ((label = "NEUTRAL" /\ sc = (1 # 2)%Q) \/
   (upper label = label /\ ~ (45 # 100 <= sc <= 55 # 100)%Q)).
Proof.
  unfold classify_sentiment in H.
  destruct (classifier_loads E); [split; [reflexivity|] | discriminate].
  simpl in H.
  destruct (blank (combined_text subject body)); [injection H as <- <-; left; auto|].
  match type of H with context [sentiment_pipeline E ?t] => destruct (sentiment_pipeline E t) as [[l s]|] end;
    [|injection H as <- <-; left; auto].
  destruct (Qle_bool (45 # 100) s && Qle_bool s (55 # 100)) eqn:Hq; injection H as <- <-;
    [left; auto|right].
  split; [apply upper_idem|].
  intros [H1 H2]; apply Qle_bool_iff in H1, H2; rewrite H1, H2 in Hq; discriminate.
Qed.


(* ------------------------------------------------------------------ *)
(** ** [src/processor/summarizer.py] *)

(** What [generate_summary] observes of its environment:
    - [summarizer_loads]: [load_summarizer_pipeline()] returns;
    - [max_summary_length_env]: [ModelConfig.from_env().max_summary_length],
      [None] when [int(os.getenv("MAX_SUMMARY_LENGTH", "50"))] raises;
    - [summarizer_call text max_length min_length]: [result[0]["summary_text"]]
      of [summarizer(text, max_length=..., min_length=..., ...)], [None] when
      anything in the [try] raises. *)
Record summ_env := {
  summarizer_loads : bool;
  max_summary_length_env : option Z;
  summarizer_call : string -> Z -> Z -> option string }.

(** [s[:n]] for [n >= 0]. *)
Definition py_prefix (n : nat) (s : string) : string := substring 0 n s.

(** [s.strip()]. *)
Definition py_strip (s : string) : string :=
  string_of_list_ascii (strip_chars (list_ascii_of_string s)).

Fixpoint last_char (s : string) : option ascii :=
  match s with
  | EmptyString => None
  | String c EmptyString => Some c
  | String _ s' => last_char s'
  end.

(** [summary[-1] in ".!?"] for a non-empty [summary]. *)
Definition ends_punct (s : string) : bool :=
  match last_char s with
  | Some c => Ascii.eqb c "." || Ascii.eqb c "!" || Ascii.eqb c "?"
  | None => false
  end.

(** [generate_summary(ticket, max_length, min_length)] on a ticket whose
    [subject] and [body] are str ([ticket.get(..., "")] gives [""] when
    absent); [None] is an exception escaping the function, which only the
    calls before the [try] can raise. *)
Definition summarizer_generate_summary (S : summ_env) (subject body : string)
    (max_length : option Z) (min_length : Z) : option string :=
  if negb (summarizer_loads S) then None
  else
    ml ← match max_length with Some n => Some n | None => max_summary_length_env S end;
    if negb (truthy_str subject) && negb (truthy_str body) then Some ""
    else if negb (truthy_str body) then Some subject
    else
      let word_count := length (split_words body) in
      if (word_count <? 20)%nat then
        Some (if truthy_str subject then subject else py_prefix 100 body)
      else
        let text := if truthy_str subject then subject ++ ". " ++ body else body in
        let words := split_words text in
        let text := if (700 <? length words)%nat then join_space (firstn 700 words) else text in
        match summarizer_call S text ml min_length with
        | Some raw =>
            let summary := py_strip raw in
            Some (if truthy_str summary && negb (ends_punct summary) then summary ++ "." else summary)
        | None => Some (if truthy_str subject then py_prefix 100 subject else py_prefix 100 body)
        end.

(** [s[:n]] for an int [n], negative values counting from the end. *)
Definition py_slice_to (s : string) (n : Z) : string :=
  if (0 <=? n)%Z then substring 0 (Z.to_nat n) s
  else substring 0 (String.length s - Z.to_nat (- n)) s.

(** The characters before the last [' '], if any. *)
Fixpoint before_last_space (cs : list ascii) : option (list ascii) :=
  match cs with
  | [] => None
  | c :: cs' =>
      match before_last_space cs' with
      | Some p => Some (c :: p)
      | None => if Ascii.eqb c " " then Some [] else None
      end
  end.

(** [s.rsplit(' ', 1)[0]]. *)
Definition rsplit_head (s : string) : string :=
  match before_last_space (list_ascii_of_string s) with
  | Some p => string_of_list_ascii p
  | None => s
  end.

(** [summarize_for_display(ticket, max_display_length)]. *)
Definition summarize_for_display (S : summ_env) (subject body : string) (max_display_length : Z)
    : option string :=
  summary ← summarizer_generate_summary S subject body (Some 30%Z) 10%Z;
  if (Z.of_nat (String.length summary) <=? max_display_length)%Z then Some summary
  else Some (rsplit_head (py_slice_to summary (max_display_length - 3)) ++ "...").

(* ------------------------------------------------------------------ *)
(** ** [batch_generate_embeddings] (texts) *)

(** The [texts] list built by [batch_generate_embeddings] for tickets whose
    [subject] and [body] are str or absent (read as [""]). *)
Definition batch_texts (tickets : list (string * string)) : list string :=
  map (fun t => let text := combined_text (fst t) (snd t) in
                if blank text then " " else text) tickets.

(* ------------------------------------------------------------------ *)
(** ** [find_similar_tickets] *)

(** [{**ticket, key: v}]: an existing key keeps its place, a new one goes last. *)
Definition dict_set (kvs : list (string * json)) (k : string) (v : json) : list (string * json) :=
  if dict_has kvs k then map (fun kv => if String.eqb (fst kv) k then (k, v) else kv) kvs
  else (kvs ++ [(k, v)])%list.

(** [l[:k]] for an int [k]. *)
Definition py_take {A} (l : list A) (k : Z) : list A :=
  if (0 <=? k)%Z then firstn (Z.to_nat k) l else firstn (length l - Z.to_nat (- k)) l.

(** [list.sort(key=..., reverse=True)]: descending, and stable. *)
Fixpoint insert_desc {A} (x : A * Q) (l : list (A * Q)) : list (A * Q) :=
  match l with
  | [] => [x]
  | y :: l' => if Qle_bool (snd y) (snd x) then x :: l else y :: insert_desc x l'
  end.

Definition sort_desc {A} (l : list (A * Q)) : list (A * Q) := fold_right insert_desc [] l.

Section Similar.

(** [compute_similarity(query_embedding, e)]; [None] when it raises. *)
Variable similarity : json -> option Q.

(** The [for ticket in ticket_embeddings] loop: the tickets kept, with
    their similarity. *)
Fixpoint similar_candidates (min_similarity : Q) (tickets : list (list (string * json)))
    : option (list (list (string * json) * Q)) :=
  match tickets with
  | [] => Some []
  | t :: ts =>
      if negb (dict_has t "embedding") then similar_candidates min_similarity ts
      else
        e ← dict_get t "embedding";
        s ← similarity e;
        rest ← similar_candidates min_similarity ts;
        Some (if Qle_bool min_similarity s then (t, s) :: rest else rest)
  end.

Definition find_similar_tickets (tickets : list (list (string * json))) (top_k : Z)
    (min_similarity : Q) : option (list (list (string * json))) :=
  sims ← similar_candidates min_similarity tickets;
  Some (map (fun p => dict_set (fst p) "similarity" (JFloat (snd p)))
            (py_take (sort_desc sims) top_k)).

End Similar.

(* ------------------------------------------------------------------ *)
(** ** [src/generator/ticket_generator.py] *)

Definition digit_char (d : Z) : ascii := ascii_of_nat (48 + Z.to_nat d).

Fixpoint digits_of (fuel : nat) (n : Z) (acc : string) : string :=
  match fuel with
  | O => acc
  | S f =>
      let acc' := String (digit_char (n mod 10)) acc in
      if (n <? 10)%Z then acc' else digits_of f (n / 10) acc'
  end.

(** [str(n)] for an int. *)
Definition str_of_Z (n : Z) : string :=
  if (n <? 0)%Z then "-" ++ digits_of (S (Z.to_nat (Z.log2 (- n)))) (- n) ""
  else digits_of (S (Z.to_nat (Z.log2 n))) n "".

(** The dict built by [generate_ticket], as [json.loads] reads back its
    [json.dumps]: [ticket_num] and [customer_num] are the two [randint]
    draws, [subject] and [body] the filled template, [priority] and
    [source] the two [random.choice] results. *)
Definition generated_ticket (ticket_num customer_num : Z) (subject body : string)
    (created_at : Z) (priority source : string) : list (string * json) :=
  [("ticket_id", JStr ("DEMO-" ++ str_of_Z ticket_num));
   ("customer_id", JStr ("CUST-" ++ str_of_Z customer_num));
   ("subject", JStr subject);
   ("body", JStr body);
   ("created_at", JInt created_at);
   ("priority", JStr priority);
   ("metadata", JObj [("source", JStr source); ("language", JStr "en"); ("tags", JArr [])])].

(** The key [upload_ticket_to_s3] writes the ticket under. *)
Definition upload_key (ticket : list (string * json)) : option string :=
  match dict_get ticket "ticket_id" with Some (JStr tid) => Some (tid ++ ".json") | _ => None end.

(* ------------------------------------------------------------------ *)
(** ** Summaries *)

Lemma substring_prefix (n : nat) (s : string) :
  exists rest, s = substring 0 n s ++ rest.
Proof.
  revert n; induction s as [|c s IH]; intros [|n]; simpl.
  - exists ""; reflexivity.
  - exists ""; reflexivity.
  - exists (String c s); reflexivity.
  - destruct (IH n) as [rest Hr]; exists rest; rewrite Hr at 1; reflexivity.
Qed.

Lemma substring_length (n : nat) (s : string) : (String.length (substring 0 n s) <= n)%nat.
Proof.
  revert n; induction s as [|c s IH]; intros [|n]; simpl; try lia.
  specialize (IH n); lia.
Qed.

Lemma last_char_dot (s : string) : last_char (s ++ ".") = Some "."%char.
Proof.
  induction s as [|c s IH]; [reflexivity|].
  destruct s as [|c' s]; [reflexivity|].
  change (last_char (String c (String c' s ++ "."))) with (last_char (String c' s ++ ".")).
  exact IH.
Qed.




Lemma string_of_list_ascii_app (l1 l2 : list ascii) :
  string_of_list_ascii (l1 ++ l2)%list = string_of_list_ascii l1 ++ string_of_list_ascii l2.
Proof. induction l1 as [|c l1 IH]; simpl; [reflexivity | now rewrite IH]. Qed.

Lemma before_last_space_prefix (cs : list ascii) (p : list ascii) :
  before_last_space cs = Some p -> exists rest, cs = (p ++ rest)%list.
Proof.
  revert p; induction cs as [|c cs IH]; intros p; simpl; [discriminate|].
  destruct (before_last_space cs) as [p'|].
  - intros H; injection H as <-; destruct (IH p' eq_refl) as [rest ->]; exists rest; reflexivity.
  - destruct (Ascii.eqb c " "); intros H; [injection H as <-; exists (c :: cs); reflexivity | discriminate].
Qed.

Lemma append_nil_r_str (s : string) : s = s ++ "".
Proof. induction s as [|c s IH]; [reflexivity | exact (f_equal (String c) IH)]. Qed.

Lemma rsplit_head_prefix (s : string) : exists rest, s = rsplit_head s ++ rest.
Proof.
  unfold rsplit_head.
  destruct (before_last_space (list_ascii_of_string s)) as [p|] eqn:H; [|exists ""; apply append_nil_r_str].
  destruct (before_last_space_prefix _ _ H) as [rest Hr].
  exists (string_of_list_ascii rest).
  rewrite <- string_of_list_ascii_app, <- Hr, string_of_list_ascii_of_string; reflexivity.
Qed.

Lemma length_append_str (s t : string) : String.length (s ++ t) = (String.length s + String.length t)%nat.
Proof. induction s as [|c s IH]; simpl; [reflexivity | now rewrite IH]. Qed.

Lemma append_assoc_str (s t u : string) : s ++ (t ++ u) = (s ++ t) ++ u.
Proof. induction s as [|c s IH]; [reflexivity | exact (f_equal (String c) IH)]. Qed.

(** For a display length of at least 3, [summarize_for_display] returns at
    most that many characters: the summary itself when it fits, otherwise a
    prefix of the summary (cut at [max_display_length - 3] characters, then
    at its last space) followed by "...". *)
Theorem summarize_for_display_bound (S : summ_env) (subject body : string) (max_display_length : Z)
    (r : string)
    (Hd : (3 <= max_display_length)%Z)
    (H : summarize_for_display S subject body max_display_length = Some r) :
  (Z.of_nat (String.length r) <= max_display_length)%Z /\
  exists summary, summarizer_generate_summary S subject body (Some 30%Z) 10%Z = Some summary /\
    (r = summary \/ exists p rest, summary = p ++ rest /\ r = p ++ "...").
Proof.
  unfold summarize_for_display in H.
  destruct (summarizer_generate_summary S subject body (Some 30%Z) 10%Z) as [summary|];
    [cbn [mbind option_bind] in H | discriminate].
  destruct (Z.of_nat (String.length summary) <=? max_display_length)%Z eqn:Hle; injection H as <-.
  - apply Z.leb_le in Hle; split; [exact Hle|]; exists summary; auto.
  - unfold py_slice_to; replace (0 <=? max_display_length - 3)%Z with true
      by (symmetry; apply Z.leb_le; lia).
    set (x := substring 0 (Z.to_nat (max_display_length - 3)) summary).
    destruct (substring_prefix (Z.to_nat (max_display_length - 3)) summary) as [rest1 H1]; fold x in H1.
    destruct (rsplit_head_prefix x) as [rest2 H2].
    pose proof (substring_length (Z.to_nat (max_display_length - 3)) summary) as Hx; fold x in Hx.
    split.
    + rewrite length_append_str; simpl.
      assert (String.length x = String.length (rsplit_head x) + String.length rest2)%nat
        by (rewrite H2 at 1; apply length_append_str).
      lia.
    + exists summary; split; [reflexivity|]; right.
      exists (rsplit_head x), (rest2 ++ rest1); split; [|reflexivity].
      rewrite append_assoc_str, <- H2; exact H1.
Qed.

(** [batch_generate_embeddings] passes one text per ticket, never the
    empty string, and for every ticket the text [generate_ticket_embedding]
    would encode; a blank text, which the single call answers with the zero
    vector without encoding, is sent as [" "]. *)
Theorem batch_texts_match_single (E : env) (tickets : list (string * string))
    (Hl : embedding_model_loads E = true) :
  Forall2 (fun t text =>
             text <> "" /\
             (fst (generate_ticket_embedding E (fst t) (snd t)) = [text] \/
              (fst (generate_ticket_embedding E (fst t) (snd t)) = [] /\ text = " ")))
          tickets (batch_texts tickets).
Proof.
  unfold batch_texts; induction tickets as [|t ts IH]; simpl; constructor; [|exact IH].
  unfold generate_ticket_embedding; rewrite Hl; simpl.
  destruct (blank (combined_text (fst t) (snd t))) eqn:Hb; simpl.
  - split; [discriminate | right; auto].
  - split; [intros He; rewrite He in Hb; discriminate | left; reflexivity].
Qed.

(* ------------------------------------------------------------------ *)
(** ** Similar tickets *)

Definition hd_le {A} (z : A * Q) (l : list (A * Q)) : Prop :=
  match l with [] => True | y :: _ => (snd y <= snd z)%Q end.

(** Non-increasing scores. *)
Fixpoint descending {A} (l : list (A * Q)) : Prop :=
  match l with [] => True | x :: l' => hd_le x l' /\ descending l' end.

Lemma insert_desc_hd {A} (z x : A * Q) (l : list (A * Q)) :
  (snd x <= snd z)%Q -> hd_le z l -> hd_le z (insert_desc x l).
Proof.
  destruct l as [|y l]; simpl; [auto|].
  destruct (Qle_bool (snd y) (snd x)); simpl; auto.
Qed.

Lemma insert_desc_sorted {A} (x : A * Q) (l : list (A * Q)) :
  descending l -> descending (insert_desc x l).
Proof.
  induction l as [|y l IH]; simpl; [auto|].
  intros [Hy Hl].
  destruct (Qle_bool (snd y) (snd x)) eqn:Hq; simpl.
  - apply Qle_bool_iff in Hq; auto.
  - split; [|apply IH, Hl].
    apply insert_desc_hd; [|exact Hy].
    apply Qlt_le_weak, Qnot_le_lt; intros Hc; apply Qle_bool_iff in Hc; congruence.
Qed.

Lemma insert_desc_in {A} (x z : A * Q) (l : list (A * Q)) :
  In z (insert_desc x l) -> z = x \/ In z l.
Proof.
  induction l as [|y l IH]; simpl; [intuition|].
  destruct (Qle_bool (snd y) (snd x)); simpl; intuition.
Qed.

Lemma sort_desc_sorted {A} (l : list (A * Q)) : descending (sort_desc l).
Proof. induction l as [|x l IH]; simpl; [exact I | apply insert_desc_sorted, IH]. Qed.

Lemma sort_desc_in {A} (l : list (A * Q)) (z : A * Q) : In z (sort_desc l) -> In z l.
Proof.
  induction l as [|x l IH]; simpl; [auto|].
  intros H; apply insert_desc_in in H as [H|H]; auto.
Qed.

Lemma firstn_descending {A} (n : nat) (l : list (A * Q)) : descending l -> descending (firstn n l).
Proof.
  revert n; induction l as [|x l IH]; intros [|n]; simpl; auto.
  intros [Hx Hl]; split; [|apply IH, Hl].
  destruct n, l; simpl in *; auto.
Qed.

Lemma py_take_descending {A} (l : list (A * Q)) (k : Z) : descending l -> descending (py_take l k).
Proof. unfold py_take; destruct (0 <=? k)%Z; apply firstn_descending. Qed.

Lemma in_firstn {A} (n : nat) (l : list A) (z : A) : In z (firstn n l) -> In z l.
Proof.
  revert n; induction l as [|x l IH]; intros [|n]; simpl; try tauto.
  intros [H|H]; [left; exact H | right; exact (IH n H)].
Qed.

Lemma py_take_in {A} (l : list A) (k : Z) (z : A) : In z (py_take l k) -> In z l.
Proof. unfold py_take; destruct (0 <=? k)%Z; apply in_firstn. Qed.

Lemma dict_get_acc (l : list (string * json)) (k : string) : forall acc,
  fold_left (fun acc kv => if String.eqb k (fst kv) then Some (snd kv) else acc) l acc =
  match dict_get l k with Some v => Some v | None => acc end.
Proof.
  unfold dict_get; induction l as [|kv l IH]; intros acc; simpl; [reflexivity|].
  rewrite (IH (if String.eqb k (fst kv) then Some (snd kv) else acc)),
          (IH (if String.eqb k (fst kv) then Some (snd kv) else None)).
  destruct (fold_left _ l None); [reflexivity|].
  destruct (String.eqb k (fst kv)); reflexivity.
Qed.

Lemma dict_get_app (l1 l2 : list (string * json)) (k : string) :
  dict_get (l1 ++ l2)%list k = match dict_get l2 k with Some v => Some v | None => dict_get l1 k end.
Proof. unfold dict_get at 1; rewrite fold_left_app, dict_get_acc; reflexivity. Qed.

Lemma dict_get_map_set (l : list (string * json)) (k : string) (v : json) : forall acc,
  fold_left (fun acc kv => if String.eqb k (fst kv) then Some (snd kv) else acc)
    (map (fun kv => if String.eqb (fst kv) k then (k, v) else kv) l) (option_map (fun _ => v) acc) =
  option_map (fun _ => v)
    (fold_left (fun acc kv => if String.eqb k (fst kv) then Some (snd kv) else acc) l acc).
Proof.
  induction l as [|kv l IH]; intros acc; simpl; [reflexivity|].
  rewrite (String.eqb_sym (fst kv) k).
  destruct (String.eqb k (fst kv)) eqn:Hk; simpl.
  - rewrite String.eqb_refl; exact (IH (Some (snd kv))).
  - rewrite Hk; apply IH.
Qed.

(** [{**ticket, k: v}[k]] is [v]. *)
Lemma dict_get_dict_set (kvs : list (string * json)) (k : string) (v : json) :
  dict_get (dict_set kvs k v) k = Some v.
Proof.
  unfold dict_set; destruct (dict_has kvs k) eqn:Hh.
  - unfold dict_get; change (@None json) with (option_map (fun _ : json => v) None) at 1.
    rewrite dict_get_map_set; fold (dict_get kvs k).
    unfold dict_has in Hh; destruct (dict_get kvs k); [reflexivity | discriminate].
  - rewrite dict_get_app.
    change (dict_get [(k, v)] k) with (if String.eqb k k then Some v else None).
    rewrite String.eqb_refl; reflexivity.
Qed.

Lemma similar_candidates_spec (similarity : json -> option Q) (min_similarity : Q)
    (tickets : list (list (string * json))) :
  forall sims, similar_candidates similarity min_similarity tickets = Some sims ->
  Forall (fun p => (min_similarity <= snd p)%Q /\ In (fst p) tickets /\
                   exists e, dict_get (fst p) "embedding" = Some e /\ similarity e = Some (snd p)) sims.
Proof.
  induction tickets as [|t ts IH]; intros sims; simpl.
  - intros H; injection H as <-; constructor.
  - destruct (dict_has t "embedding"); simpl.
    + destruct (dict_get t "embedding") as [e|] eqn:He; [cbn [mbind option_bind] | discriminate].
      destruct (similarity e) as [s|] eqn:Hs; [cbn [mbind option_bind] | discriminate].
      destruct (similar_candidates similarity min_similarity ts) as [rest|] eqn:Hr;
        [cbn [mbind option_bind] | discriminate].
      intros H; injection H as <-.
      specialize (IH rest eq_refl).
      assert (IH' : Forall (fun p => (min_similarity <= snd p)%Q /\ (t = fst p \/ In (fst p) ts) /\
                     exists e, dict_get (fst p) "embedding" = Some e /\ similarity e = Some (snd p)) rest)
        by (eapply Forall_impl; [exact IH|]; simpl; intuition).
      destruct (Qle_bool min_similarity s) eqn:Hq; [|exact IH'].
      constructor; [|exact IH'].
      apply Qle_bool_iff in Hq; simpl; split; [exact Hq|]; split; [left; reflexivity|]; eauto.
    + intros H; specialize (IH sims H).
      eapply Forall_impl; [exact IH|]; simpl; intuition.
Qed.

(** [find_similar_tickets] returns, most similar first, copies of tickets
    of the input that carry an "embedding" and whose similarity to the query
    reaches [min_similarity], each with its "similarity" set to that score;
    with a non-negative [top_k] there are at most [top_k] of them (a
    negative one drops that many from the end instead). *)
Theorem find_similar_tickets_spec (similarity : json -> option Q)
    (tickets : list (list (string * json))) (top_k : Z) (min_similarity : Q)
    (res : list (list (string * json)))
    (H : find_similar_tickets similarity tickets top_k min_similarity = Some res) :
  exists scored,
    res = map (fun p => dict_set (fst p) "similarity" (JFloat (snd p))) scored /\
    descending scored /\
    ((0 <= top_k)%Z -> (Z.of_nat (length scored) <= top_k)%Z) /\
    Forall (fun p => (min_similarity <= snd p)%Q /\ In (fst p) tickets /\
                     (exists e, dict_get (fst p) "embedding" = Some e /\ similarity e = Some (snd p)) /\
                     dict_get (dict_set (fst p) "similarity" (JFloat (snd p))) "similarity"
                       = Some (JFloat (snd p))) scored.
Proof.
  unfold find_similar_tickets in H.
  destruct (similar_candidates similarity min_similarity tickets) as [sims|] eqn:Hs;
    [cbn [mbind option_bind] in H | discriminate].
  injection H as <-.
  exists (py_take (sort_desc sims) top_k).
  split; [reflexivity|]; split; [apply py_take_descending, sort_desc_sorted|]; split.
  - intros Hk; unfold py_take; replace (0 <=? top_k)%Z with true by (symmetry; apply Z.leb_le, Hk).
    rewrite length_firstn; lia.
  - apply Forall_forall; intros p Hp.
    apply list_elem_of_In, py_take_in, sort_desc_in, list_elem_of_In in Hp.
    pose proof (proj1 (Forall_forall _ _) (similar_candidates_spec _ _ _ _ Hs) p Hp) as Hc.
    destruct Hc as (Hm & Hi & He); repeat split; [exact Hm | exact Hi | exact He | apply dict_get_dict_set].
Qed.

(* ------------------------------------------------------------------ *)
(** ** Schemas: what validation keeps of the dict *)

Lemma mapM_pyd_str (l : list string) : mapM pyd_str (map JStr l) = Some l.
Proof. induction l as [|s l IH]; simpl; [reflexivity | rewrite IH; reflexivity]. Qed.

Lemma validate_metadata_json (m : TicketMetadata.t) :
  validate_metadata (metadata_json m) = Some m.
Proof.
  destruct m as [src lang tgs]; unfold validate_metadata, metadata_json, required, with_default.
  cbn [dict_get fold_left fst snd String.eqb Ascii.eqb Bool.eqb andb].
  cbn [mbind option_bind pyd_str]; rewrite mapM_pyd_str; reflexivity.
Qed.

(** The JSON document [store_results] writes to the enriched bucket,
    validated again as a [RawTicket] (its extra ["enrichment"] member is
    ignored), gives back the raw ticket it was built from. *)
Theorem enriched_blob_revalidates (t : RawTicket.t) (en : EnrichmentData.t) :
  exists kvs, enriched_json (from_raw t en) = JObj kvs /\ validate_raw_ticket kvs = Some t.
Proof.
  eexists; split; [reflexivity|].
  destruct t as [tid subj bdy prio cat cid md].
  unfold validate_raw_ticket, required, with_default.
  cbn [dict_get fold_left fst snd String.eqb Ascii.eqb Bool.eqb andb from_raw
       EnrichedTicket.ticket_id EnrichedTicket.subject EnrichedTicket.body
       EnrichedTicket.priority EnrichedTicket.created_at EnrichedTicket.customer_id
       EnrichedTicket.metadata].
  cbn [mbind option_bind pyd_str pyd_int].
  rewrite validate_metadata_json.
  destruct prio; reflexivity.
Qed.

Lemma validate_priority_null (raw : list (string * json)) (t : RawTicket.t) :
  validate_raw_ticket raw = Some t -> dict_get raw "priority" = Some JNull ->
  RawTicket.priority t = None.
Proof.
  intros H Hn; unfold validate_raw_ticket, required, with_default in H; rewrite Hn in H.
  destruct (dict_get raw "ticket_id") as [v1|]; [|discriminate]; cbn [mbind option_bind] in H.
  destruct (pyd_str v1); [|discriminate]; cbn [mbind option_bind] in H.
  destruct (dict_get raw "subject") as [v2|]; [|discriminate]; cbn [mbind option_bind] in H.
  destruct (pyd_str v2); [|discriminate]; cbn [mbind option_bind] in H.
  destruct (dict_get raw "body") as [v3|]; [|discriminate]; cbn [mbind option_bind] in H.
  destruct (pyd_str v3); [|discriminate]; cbn [mbind option_bind] in H.
  destruct (dict_get raw "created_at") as [v4|]; [|discriminate]; cbn [mbind option_bind] in H.
  destruct (pyd_int v4); [|discriminate]; cbn [mbind option_bind] in H.
  destruct (dict_get raw "customer_id") as [v5|]; [|discriminate]; cbn [mbind option_bind] in H.
  destruct (pyd_str v5); [|discriminate]; cbn [mbind option_bind] in H.
  destruct (match dict_get raw "metadata" with Some v => validate_metadata v | None => Some default_metadata end);
    [|discriminate]; cbn [mbind option_bind] in H.
  injection H as <-; reflexivity.
Qed.

(** A ticket whose ["priority"] is JSON null passes validation, but its
    enrichment always fails: [classify_urgency] calls [.lower()] on
    [None] (if the embedding has not failed before). *)
Theorem null_priority_rejected (E : env) (raw : list (string * json)) (t : RawTicket.t)
    (Hv : validate_raw_ticket raw = Some t) (Hn : dict_get raw "priority" = Some JNull) :
  RawTicket.priority t = None /\ process_ticket E raw = inl EnrichmentError.
Proof.
  split.
  - exact (validate_priority_null raw t Hv Hn).
  - unfold process_ticket; rewrite Hv.
    destruct (snd (generate_ticket_embedding E _ _)); [|reflexivity].
    unfold get_classification_summary; rewrite Hn; reflexivity.
Qed.

(* ------------------------------------------------------------------ *)
(** ** Generated tickets *)

(** Every ticket [generate_ticket] builds is a valid [RawTicket] with the
    drawn priority, source ["en"] metadata and no tags; its priority is one
    of the four levels, so [classify_urgency] takes it as explicit with
    confidence 1 whatever the text; and [upload_ticket_to_s3] stores it
    under the key [store_results] uses for its enriched record. *)
Theorem generated_ticket_valid (ticket_num customer_num : Z) (subject body : string)
    (created_at : Z) (priority source : string) (matches : string -> string -> nat)
    (Hp : In priority ["low"; "medium"; "high"; "critical"]) :
  let kvs := generated_ticket ticket_num customer_num subject body created_at priority source in
  validate_raw_ticket kvs =
    Some {| RawTicket.ticket_id := "DEMO-" ++ str_of_Z ticket_num;
            RawTicket.subject := subject; RawTicket.body := body;
            RawTicket.priority := Some priority; RawTicket.created_at := created_at;
            RawTicket.customer_id := "CUST-" ++ str_of_Z customer_num;
            RawTicket.metadata := {| TicketMetadata.source := source;
                                     TicketMetadata.language := "en";
                                     TicketMetadata.tags := [] |} |} /\
  classify_urgency matches (dict_get kvs "priority") subject body = Some (priority, 1%Q) /\
  upload_key kvs = Some (blob_key ("DEMO-" ++ str_of_Z ticket_num)).
Proof.
  intros kvs; split; [reflexivity|]; split; [|reflexivity].
  simpl in Hp; destruct Hp as [<-|[<-|[<-|[<-|[]]]]]; reflexivity.
Qed.

(* ------------------------------------------------------------------ *)
(** ** A unit that succeeds *)

(** When [process_unit] returns, the notification named a str container
    and key holding a JSON dict that validates as ticket [t], and
    [process_ticket] enriched it into [e], which carries [t]'s fields. The
    table now maps (ticket_id, created_at) to the projection of [e], whose
    [s3_key] is ["{ticket_id}.json"], and that object of the enriched
    bucket holds the full record of [e]; one more ticket is counted as
    processed, and no message was acknowledged or failed. *)
Theorem process_unit_success (E : env) (cfg : config) (b k : json) (st st' : store)
    (H : process_unit E cfg b k st = (inr tt, st')) :
  exists bucket key raw t e,
    b = JStr bucket /\ k = JStr key /\ s3 st !! (bucket, key) = Some (Some (JObj raw)) /\
    validate_raw_ticket raw = Some t /\
    process_ticket E raw = inr e /\
    e = from_raw t (EnrichedTicket.enrichment e) /\
    table st' !! (RawTicket.ticket_id t, RawTicket.created_at t) = Some (from_enriched e) /\
    DynamoDBTicket.s3_key (from_enriched e) = blob_key (RawTicket.ticket_id t) /\
    s3 st' !! (enriched_bucket cfg, blob_key (RawTicket.ticket_id t)) = Some (Some (enriched_json e)) /\
    tickets_processed st' = S (tickets_processed st) /\
    tickets_failed st' = tickets_failed st /\
    delete_requests st' = delete_requests st.
Proof.
  unfold process_unit in H; rewrite bind_apply in H.
  destruct b as [| | | |bucket| |]; destruct k as [| | | |key| |]; try discriminate.
  unfold fetch_ticket_from_s3 at 1 in H.
  destruct (s3 st !! (bucket, key)) as [[[| | | | | |raw]|]|] eqn:Hs; try discriminate.
  cbv beta iota in H; rewrite bind_apply in H.
  destruct (process_ticket E raw) as [e|en] eqn:Hpt;
    cbn [lift_sum mret M_ret raise] in H; cbv beta iota in H; [discriminate|].
  rewrite bind_apply in H.
  destruct (store_results E cfg en st) as [[e|[]] st2] eqn:Hsr; [discriminate|].
  cbn [modify] in H; injection H as <-.
  destruct (process_ticket_inv E raw en Hpt) as (t & _ & _ & d & Hv & _ & _ & _ & _ & _ & Hen).
  subst en.
  destruct (store_results_ok_effect E cfg _ st st2 Hsr) as [Ht Hb].
  exists bucket, key, raw, t, (from_raw t d).
  do 6 (split; [reflexivity || assumption|]).
  cbn [incr_processed table s3 tickets_processed tickets_failed delete_requests].
  rewrite Ht, Hb.
  assert (Hd : delete_requests st2 = delete_requests st /\ tickets_failed st2 = tickets_failed st
               /\ tickets_processed st2 = tickets_processed st).
  { unfold store_results in Hsr.
    destruct (put_item_fails E _); [discriminate|].
    destruct (put_object_fails E _ _); [discriminate|].
    injection Hsr as <-; auto. }
  destruct Hd as (Hd1 & Hd2 & Hd3).
  rewrite Hd1, Hd2, Hd3.
  split; [apply lookup_insert_eq|].
  split; [reflexivity|].
  split; [apply lookup_insert_eq|].
  auto.
Qed.

(* ------------------------------------------------------------------ *)
(** ** What the worker loop never undoes *)

(** [st'] extends [st]: no table item or object removed, objects outside
    the enriched bucket untouched, receipts only added, counters monotone. *)
Definition grows (cfg : config) (st st' : store) : Prop :=
  (forall k, is_Some (table st !! k) -> is_Some (table st' !! k)) /\
  (forall k, is_Some (s3 st !! k) -> is_Some (s3 st' !! k)) /\
  (forall b key, b <> enriched_bucket cfg -> s3 st' !! (b, key) = s3 st !! (b, key)) /\
  (exists l, delete_requests st' = (l ++ delete_requests st)%list) /\
  (tickets_processed st <= tickets_processed st')%nat /\
  (tickets_failed st <= tickets_failed st')%nat.

Definition mgrows {A} (cfg : config) (m : M A) : Prop := forall st, grows cfg st (snd (m st)).

Lemma grows_refl (cfg : config) (st : store) : grows cfg st st.
Proof. repeat split; auto; exists []; reflexivity. Qed.

Lemma grows_trans (cfg : config) (s1 s2 s3 : store) :
  grows cfg s1 s2 -> grows cfg s2 s3 -> grows cfg s1 s3.
Proof.
  intros (A1 & B1 & C1 & [l1 D1] & E1 & F1) (A2 & B2 & C2 & [l2 D2] & E2 & F2).
  repeat split; auto; try lia.
  - intros b key Hb; rewrite C2, C1; auto.
  - exists (l2 ++ l1)%list; rewrite D2, D1, app_assoc; reflexivity.
Qed.

Lemma mgrows_bind {A B} (cfg : config) (m : M A) (k : A -> M B) :
  mgrows cfg m -> (forall x, mgrows cfg (k x)) -> mgrows cfg (m ≫= k).
Proof.
  intros Hm Hk st; rewrite bind_apply.
  specialize (Hm st); destruct (m st) as [[e|x] st']; simpl in *; [exact Hm|].
  eapply grows_trans; [exact Hm | apply Hk].
Qed.

Lemma mgrows_pure {A} (cfg : config) (m : M A) : (forall st, snd (m st) = st) -> mgrows cfg m.
Proof. intros H st; rewrite H; apply grows_refl. Qed.

Lemma insert_is_Some {K V} `{Countable K} (m : gmap K V) (i j : K) (x : V) :
  is_Some (m !! j) -> is_Some (<[i:=x]> m !! j).
Proof.
  intros Hj; destruct (decide (i = j)) as [->|Hne].
  - rewrite lookup_insert_eq; eauto.
  - rewrite lookup_insert_ne by exact Hne; exact Hj.
Qed.

Lemma mgrows_store_results (E : env) (cfg : config) (e : EnrichedTicket.t) :
  mgrows cfg (store_results E cfg e).
Proof.
  intros st; unfold store_results.
  destruct (put_item_fails E _); [apply grows_refl|].
  destruct (put_object_fails E _ _); simpl.
  - repeat split; simpl; auto; [intros k; apply insert_is_Some | exists []; reflexivity].
  - repeat split; simpl; auto.
    + intros k; apply insert_is_Some.
    + intros k Hk; apply insert_is_Some; exact Hk.
    + intros b key Hb; rewrite lookup_insert_ne; [reflexivity|].
      intros Heq; injection Heq as Heq _; exact (Hb (eq_sym Heq)).
    + exists []; reflexivity.
Qed.

Lemma mgrows_process_unit (E : env) (cfg : config) (b k : json) :
  mgrows cfg (process_unit E cfg b k).
Proof.
  unfold process_unit; apply mgrows_bind.
  { apply mgrows_pure; intros st; unfold fetch_ticket_from_s3.
    destruct b as [| | | |b| |]; destruct k as [| | | |k| |]; try reflexivity.
    destruct (s3 st !! (b, k)) as [[[| | | | | |]|]|]; reflexivity. }
  intros raw; apply mgrows_bind.
  { apply mgrows_pure; intros st; destruct (process_ticket E raw); reflexivity. }
  intros en; apply mgrows_bind; [apply mgrows_store_results|].
  intros _ st; repeat split; simpl; auto; exists []; reflexivity.
Qed.

Lemma mgrows_run_records (E : env) (cfg : config) (records : list json) :
  mgrows cfg (run_records E cfg records).
Proof.
  induction records as [|r records IH]; simpl; [apply mgrows_pure; reflexivity|].
  apply mgrows_bind.
  { apply mgrows_pure; intros st; destruct (record_target cfg r); reflexivity. }
  intros t; apply mgrows_bind; [apply mgrows_process_unit|].
  intros _; exact IH.
Qed.

Lemma mgrows_message_body (E : env) (cfg : config) (body : option json) :
  mgrows cfg (message_body E cfg body).
Proof.
  intros st; destruct body as [b|]; simpl; [|apply grows_refl].
  destruct (py_in "Records" b) as [[]|]; simpl; try apply grows_refl.
  destruct (getitem b "Records") as [rs|]; simpl; [|apply grows_refl].
  destruct (py_iter rs) as [records|]; simpl; [|apply grows_refl].
  apply mgrows_run_records.
Qed.

Lemma handle_message_grows (E : env) (cfg : config) (st : store) (m : message) :
  grows cfg st (handle_message E cfg st m).
Proof.
  assert (Hp : grows cfg st (snd (message_prog E cfg m st))).
  { apply mgrows_bind; [apply mgrows_message_body|].
    intros _ s; unfold delete_message.
    destruct (delete_message_fails E _); simpl;
      (repeat split; simpl; auto; exists [ReceiptHandle m]; reflexivity). }
  unfold handle_message.
  destruct (message_prog E cfg m st) as [[e|x] st']; simpl in *; [|exact Hp].
  eapply grows_trans; [exact Hp|].
  repeat split; simpl; auto; exists []; reflexivity.
Qed.

Lemma run_batch_grows (E : env) (cfg : config) (msgs : list message) :
  forall st, grows cfg st (run_batch E cfg msgs st).
Proof.
  unfold run_batch; induction msgs as [|m msgs IH]; intros st; simpl; [apply grows_refl|].
  eapply grows_trans; [apply handle_message_grows | apply IH].
Qed.

(** [poll_and_process] never deletes a table item or an S3 object, never
    writes outside the enriched bucket (raw tickets stay as they were),
    only ever adds receipts to the delete requests, and never decreases the
    two counters, whatever the services do. *)
Theorem poll_and_process_never_removes (E : env) (cfg : config)
    (received : option (list message)) (st : store) :
  let st' := snd (poll_and_process E cfg received st) in
  (forall k, is_Some (table st !! k) -> is_Some (table st' !! k)) /\
  (forall k, is_Some (s3 st !! k) -> is_Some (s3 st' !! k)) /\
  (forall b key, b <> enriched_bucket cfg -> s3 st' !! (b, key) = s3 st !! (b, key)) /\
  (exists l, delete_requests st' = (l ++ delete_requests st)%list) /\
  (tickets_processed st <= tickets_processed st')%nat /\
  (tickets_failed st <= tickets_failed st')%nat.
Proof.
  unfold poll_and_process.
  destruct received as [[|m msgs]|]; simpl; try apply grows_refl.
  apply (run_batch_grows E cfg (m :: msgs) st).
Qed.

(* ------------------------------------------------------------------ *)
(** ** Per-batch accounting *)

Lemma handle_message_account (E : env) (cfg : config) (st : store) (m : message) :
  let st' := handle_message E cfg st m in
  exists l, delete_requests st' = (l ++ delete_requests st)%list /\
    ((l = [] /\ tickets_failed st' = S (tickets_failed st)) \/
     (l = [ReceiptHandle m] /\
      (tickets_failed st' = tickets_failed st \/ tickets_failed st' = S (tickets_failed st)))).
Proof.
  unfold handle_message, message_prog; rewrite bind_apply.
  pose proof (keeps_deletes_message_body E cfg (Body m) st) as Kd.
  pose proof (keeps_failed_message_body E cfg (Body m) st) as Kf.
  destruct (message_body E cfg (Body m) st) as [[e|[]] st1]; simpl in *.
  - exists []; split; [exact Kd|]; left; split; [reflexivity|]; rewrite Kf; reflexivity.
  - unfold delete_message.
    destruct (delete_message_fails E _); simpl; exists [ReceiptHandle m];
      (split; [rewrite Kd; reflexivity|]); right; split; auto; rewrite Kf; auto.
Qed.

Lemma run_batch_account (E : env) (cfg : config) (msgs : list message) :
  forall st,
  let st' := run_batch E cfg msgs st in
  exists l, delete_requests st' = (l ++ delete_requests st)%list /\
    Forall (fun h => exists m, In m msgs /\ ReceiptHandle m = h) l /\
    (length l <= length msgs)%nat /\
    (tickets_failed st' <= tickets_failed st + length msgs)%nat /\
    (length msgs + tickets_failed st <= tickets_failed st' + length l)%nat.
Proof.
  unfold run_batch; induction msgs as [|m msgs IH]; intros st; simpl.
  - exists []; simpl; repeat split; [constructor | lia | lia | lia].
  - destruct (handle_message_account E cfg st m) as (l1 & D1 & C1).
    destruct (IH (handle_message E cfg st m)) as (l2 & D2 & F2 & L2 & A2 & B2).
    exists (l2 ++ l1)%list; rewrite D2, D1, app_assoc; split; [reflexivity|].
    rewrite length_app.
    split.
    + apply Forall_app; split.
      * eapply Forall_impl; [exact F2|]; intros h (m' & Hm' & Hh); eauto.
      * destruct C1 as [[-> _] | [-> _]]; constructor; [|constructor]; eauto.
    + destruct C1 as [[-> F] | [-> [F|F]]]; simpl in *; rewrite F in A2, B2; lia.
Qed.

Lemma handle_message_outcome (E : env) (cfg : config) (s : store) (m : message) :
  let s' := handle_message E cfg s m in
  match fst (message_body E cfg (Body m) s) with
  | inl _ => delete_requests s' = delete_requests s /\ tickets_failed s' = S (tickets_failed s)
  | inr _ => delete_requests s' = ReceiptHandle m :: delete_requests s /\
             tickets_failed s' =
               (if delete_message_fails E (ReceiptHandle m) then S (tickets_failed s)
                else tickets_failed s)
  end.
Proof.
  unfold handle_message, message_prog; rewrite bind_apply.
  pose proof (keeps_deletes_message_body E cfg (Body m) s) as Kd.
  pose proof (keeps_failed_message_body E cfg (Body m) s) as Kf.
  destruct (message_body E cfg (Body m) s) as [[e|[]] st1]; simpl in *.
  - rewrite Kd, Kf; auto.
  - unfold delete_message.
    destruct (delete_message_fails E _); simpl; rewrite Kd, Kf; auto.
Qed.

(** For a received batch, [poll_and_process] reports its size and runs
    the loop body on each message in turn. For one message: when the body
    raised before the delete, no delete request is issued and one failure
    is counted; otherwise the message's receipt is sent to delete_message,
    and one failure is counted exactly when that call raises. Over the
    batch, each delete request added is the receipt of a message of the
    batch, and the batch size lies between the larger and the sum of the
    new delete requests and the new failures. *)
Theorem poll_and_process_accounting (E : env) (cfg : config) (msgs : list message) (st : store) :
  (forall s m,
    let s' := handle_message E cfg s m in
    match fst (message_body E cfg (Body m) s) with
    | inl _ => delete_requests s' = delete_requests s /\ tickets_failed s' = S (tickets_failed s)
    | inr _ => delete_requests s' = ReceiptHandle m :: delete_requests s /\
               tickets_failed s' =
                 (if delete_message_fails E (ReceiptHandle m) then S (tickets_failed s)
                  else tickets_failed s)
    end) /\
  let '(n, st') := poll_and_process E cfg (Some msgs) st in
  n = length msgs /\
  st' = fold_left (handle_message E cfg) msgs st /\
  exists l, delete_requests st' = (l ++ delete_requests st)%list /\
    Forall (fun h => exists m, In m msgs /\ ReceiptHandle m = h) l /\
    (length l <= n)%nat /\
    (tickets_failed st' <= tickets_failed st + n)%nat /\
    (n + tickets_failed st <= tickets_failed st' + length l)%nat.
Proof.
  split; [intros s m; apply handle_message_outcome|].
  unfold poll_and_process.
  destruct msgs as [|m msgs].
  - split; [reflexivity|]; split; [reflexivity|].
    exists []; simpl; repeat split; [constructor | lia | lia | lia].
  - split; [reflexivity|]; split; [reflexivity|].
    apply (run_batch_account E cfg (m :: msgs) st).
Qed.

(* ------------------------------------------------------------------ *)
(** ** Concrete instances of the properties above *)

Example str_of_Z_ex : str_of_Z 12345 = "12345" /\ str_of_Z 0 = "0" /\ str_of_Z (-7) = "-7".
Proof. vm_compute; auto. Qed.

(** [re.findall] counts with "login" and "error" found twice each. *)
Definition matches_login_error (kw text : string) : nat :=
  if String.eqb kw "login" then 2%nat else if String.eqb kw "error" then 2%nat else 0%nat.

Lemma classify_intent_argmax_witness :
  classify_intent matches_login_error "x" "y" = ("login_issue", 2 # 3)%Q /\
  "login_issue" <> "general_inquiry" /\
  exists pre n post,
    intent_scores matches_login_error (lower ("x" ++ " " ++ "y")) =
      (pre ++ ("login_issue", n) :: post)%list /\
    Forall (fun p => (snd p < n)%nat) pre /\ Forall (fun p => (snd p <= n)%nat) post /\
    (2 # 3)%Q = py_min (inject_Z (Z.of_nat n) / 3) 1.
Proof.
  assert (H : classify_intent matches_login_error "x" "y" = ("login_issue", 2 # 3)%Q)
    by (vm_compute; reflexivity).
  assert (Hl : "login_issue" <> "general_inquiry") by discriminate.
  split; [exact H|]; split; [exact Hl|].
  exact (classify_intent_argmax matches_login_error "x" "y" "login_issue" (2 # 3) H Hl).
Defined.

Definition no_matches (kw text : string) : nat := 0%nat.




Lemma classify_urgency_explicit_witness :
  In (lower "HIGH") URGENCY_LEVELS /\
  classify_urgency no_matches (Some (JStr "HIGH")) "Site down" "urgent" = Some (lower "HIGH", 1%Q).
Proof.
  assert (H : In (lower "HIGH") URGENCY_LEVELS) by (vm_compute; right; left; reflexivity).
  split; [exact H | exact (classify_urgency_explicit no_matches "HIGH" "Site down" "urgent" H)].
Defined.

(** "error" and "help" found once each. *)
Definition matches_error_help (kw text : string) : nat :=
  if String.eqb kw "error" then 1%nat else if String.eqb kw "help" then 1%nat else 0%nat.

Lemma classify_urgency_keywords_witness :
  (@None json = None \/ exists p, @None json = Some (JStr p) /\ ~ In (lower p) URGENCY_LEVELS) /\
  blank "a" && blank "b" = false /\
  classify_urgency matches_error_help None "a" "b" = Some ("high", (8 # 10)%Q) /\
  let text := lower ("a" ++ " " ++ "b") in
  ((exists pre kws post, URGENCY_KEYWORDS = (pre ++ ("high", kws) :: post)%list /\
     (exists kw, In kw kws /\ (0 < matches_error_help kw text)%nat) /\
     Forall (no_match matches_error_help text) pre /\
     (8 # 10)%Q = urgency_confidence "high") \/
   ("high" = "medium" /\ (8 # 10)%Q = (6 # 10)%Q /\
    Forall (no_match matches_error_help text) URGENCY_KEYWORDS)).
Proof.
  assert (Hp : @None json = None \/ exists p, @None json = Some (JStr p) /\ ~ In (lower p) URGENCY_LEVELS)
    by (left; reflexivity).
  assert (Hb : blank "a" && blank "b" = false) by reflexivity.
  assert (H : classify_urgency matches_error_help None "a" "b" = Some ("high", (8 # 10)%Q))
    by (vm_compute; reflexivity).
  split; [exact Hp|]; split; [exact Hb|]; split; [exact H|].
  exact (classify_urgency_keywords matches_error_help None "a" "b" "high" (8 # 10) Hp Hb H).
Defined.

Lemma classify_sentiment_band_witness :
  classify_sentiment env0 "Great" "Thanks" = Some ("POSITIVE", (9 # 10)%Q) /\
  classifier_loads env0 = true /\
  (("POSITIVE" = "NEUTRAL" /\ (9 # 10)%Q = (1 # 2)%Q) \/
   (upper "POSITIVE" = "POSITIVE" /\ ~ (45 # 100 <= 9 # 10 <= 55 # 100)%Q)).
Proof.
  assert (H : classify_sentiment env0 "Great" "Thanks" = Some ("POSITIVE", (9 # 10)%Q))
    by (vm_compute; reflexivity).
  split; [exact H | exact (classify_sentiment_band env0 "Great" "Thanks" "POSITIVE" (9 # 10) H)].
Defined.



(** A summarizer configured with [max_summary_length = 150] whose model
    answers " Short summary " with surrounding blanks. *)
Definition summ0 : summ_env := {|
  summarizer_loads := true;
  max_summary_length_env := Some 150%Z;
  summarizer_call := fun _ _ _ => Some " Short summary " |}.


Definition long_body : string :=
  "I cannot log in to my account since this morning and the page keeps showing an error about invalid credentials every time".




Lemma summarize_for_display_bound_witness :
  (3 <= 10)%Z /\
  summarize_for_display summ0 "Login" long_body 10 = Some "Short..." /\
  (Z.of_nat (String.length "Short...") <= 10)%Z /\
  exists summary, summarizer_generate_summary summ0 "Login" long_body (Some 30%Z) 10%Z = Some summary /\
    ("Short..." = summary \/ exists p rest, summary = p ++ rest /\ "Short..." = p ++ "...").
Proof.
  assert (Hd : (3 <= 10)%Z) by lia.
  assert (H : summarize_for_display summ0 "Login" long_body 10 = Some "Short...")
    by (vm_compute; reflexivity).
  split; [exact Hd|]; split; [exact H|].
  exact (summarize_for_display_bound summ0 "Login" long_body 10 "Short..." Hd H).
Defined.

Lemma batch_texts_match_single_witness :
  embedding_model_loads env0 = true /\
  Forall2 (fun t text =>
             text <> "" /\
             (fst (generate_ticket_embedding env0 (fst t) (snd t)) = [text] \/
              (fst (generate_ticket_embedding env0 (fst t) (snd t)) = [] /\ text = " ")))
          [("Login", "Cannot log in"); ("", " ")] (batch_texts [("Login", "Cannot log in"); ("", " ")]).
Proof.
  assert (Hl : embedding_model_loads env0 = true) by reflexivity.
  split; [exact Hl | exact (batch_texts_match_single env0 [("Login", "Cannot log in"); ("", " ")] Hl)].
Defined.

(** Stored tickets whose embedding is reduced to one float, and the
    similarity that reads it back. *)
Definition float_similarity (e : json) : option Q :=
  match e with JFloat q => Some q | _ => None end.

Definition stored_tickets : list (list (string * json)) := [
  [("ticket_id", JStr "A"); ("embedding", JFloat (9 # 10))];
  [("ticket_id", JStr "B")];
  [("ticket_id", JStr "C"); ("embedding", JFloat (3 # 10))];
  [("ticket_id", JStr "D"); ("embedding", JFloat (7 # 10))]].

Lemma find_similar_tickets_spec_witness :
  exists res, find_similar_tickets float_similarity stored_tickets 5 (1 # 2) = Some res /\
  exists scored,
    res = map (fun p => dict_set (fst p) "similarity" (JFloat (snd p))) scored /\
    descending scored /\
    ((0 <= 5)%Z -> (Z.of_nat (length scored) <= 5)%Z) /\
    Forall (fun p => (1 # 2 <= snd p)%Q /\ In (fst p) stored_tickets /\
                     (exists e, dict_get (fst p) "embedding" = Some e /\ float_similarity e = Some (snd p)) /\
                     dict_get (dict_set (fst p) "similarity" (JFloat (snd p))) "similarity"
                       = Some (JFloat (snd p))) scored.
Proof.
  destruct (find_similar_tickets float_similarity stored_tickets 5 (1 # 2)) as [res|] eqn:H.
  - exists res; split; [reflexivity|].
    exact (find_similar_tickets_spec float_similarity stored_tickets 5 (1 # 2) res H).
  - vm_compute in H; discriminate.
Defined.

Definition sample_kvs_null_priority : list (string * json) :=
  (sample_kvs ++ [("priority", JNull)])%list.

Lemma null_priority_rejected_witness :
  exists t, validate_raw_ticket sample_kvs_null_priority = Some t /\
  dict_get sample_kvs_null_priority "priority" = Some JNull /\
  RawTicket.priority t = None /\ process_ticket env0 sample_kvs_null_priority = inl EnrichmentError.
Proof.
  assert (Hn : dict_get sample_kvs_null_priority "priority" = Some JNull) by reflexivity.
  destruct (validate_raw_ticket sample_kvs_null_priority) as [t|] eqn:H.
  - exists t; split; [reflexivity|]; split; [exact Hn|].
    exact (null_priority_rejected env0 sample_kvs_null_priority t H Hn).
  - vm_compute in H; discriminate.
Defined.

Lemma generated_ticket_valid_witness :
  In "high" ["low"; "medium"; "high"; "critical"] /\
  let kvs := generated_ticket 12345 1234 "Cannot login" "Password reset fails" 1700000000 "high" "web" in
  validate_raw_ticket kvs =
    Some {| RawTicket.ticket_id := "DEMO-" ++ str_of_Z 12345;
            RawTicket.subject := "Cannot login"; RawTicket.body := "Password reset fails";
            RawTicket.priority := Some "high"; RawTicket.created_at := 1700000000;
            RawTicket.customer_id := "CUST-" ++ str_of_Z 1234;
            RawTicket.metadata := {| TicketMetadata.source := "web";
                                     TicketMetadata.language := "en";
                                     TicketMetadata.tags := [] |} |} /\
  classify_urgency no_matches (dict_get kvs "priority") "Cannot login" "Password reset fails"
    = Some ("high", 1%Q) /\
  upload_key kvs = Some (blob_key ("DEMO-" ++ str_of_Z 12345)).
Proof.
  assert (Hp : In "high" ["low"; "medium"; "high"; "critical"]) by (right; right; left; reflexivity).
  split; [exact Hp|].
  exact (generated_ticket_valid 12345 1234 "Cannot login" "Password reset fails" 1700000000
           "high" "web" no_matches Hp).
Defined.

Lemma process_unit_success_witness :
  exists st', process_unit env0 cfg0 (JStr "tickets-raw") (JStr "T-1.json") store0 = (inr tt, st') /\
  exists bucket key raw t e,
    JStr "tickets-raw" = JStr bucket /\ JStr "T-1.json" = JStr key /\
    s3 store0 !! (bucket, key) = Some (Some (JObj raw)) /\
    validate_raw_ticket raw = Some t /\
    process_ticket env0 raw = inr e /\
    e = from_raw t (EnrichedTicket.enrichment e) /\
    table st' !! (RawTicket.ticket_id t, RawTicket.created_at t) = Some (from_enriched e) /\
    DynamoDBTicket.s3_key (from_enriched e) = blob_key (RawTicket.ticket_id t) /\
    s3 st' !! (enriched_bucket cfg0, blob_key (RawTicket.ticket_id t)) = Some (Some (enriched_json e)) /\
    tickets_processed st' = S (tickets_processed store0) /\
    tickets_failed st' = tickets_failed store0 /\
    delete_requests st' = delete_requests store0.
Proof.
  destruct (process_unit env0 cfg0 (JStr "tickets-raw") (JStr "T-1.json") store0) as [[e|[]] st'] eqn:H.
  - vm_compute in H; discriminate.
  - exists st'; split; [reflexivity|].
    exact (process_unit_success env0 cfg0 (JStr "tickets-raw") (JStr "T-1.json") store0 st' H).
Defined.
